(** * The provisioning endpoints of ai-identity-agent, embedded in Rocq

    The development follows the Python sources file by file:
    - [config/settings.py], [logic/opa_enforcer.py], [logic/ai_recommender.py],
      [provision/entra.py], [provision/sailpoint.py], [provision/aws.py]
      (the collaborators), and
    - [main.py] (module initialisation, the request schema [UserModel], the
      advisory helper and the three POST handlers).

    Python values are a small inductive type; dictionaries are association
    lists in insertion order, as Python keeps them.  The code's effects are
    writes to the audit log (the root logger, which [logging.basicConfig]
    sends to [logs/audit.log]) and calls to collaborators; both are outputs
    of a writer monad with exceptions.  Everything the network answers is
    read from a [world] record. *)

From Stdlib Require Import Ascii String List ZArith Bool Lia.
Import ListNotations.
Open Scope string_scope.
Open Scope list_scope.

(** ** Python values *)

Set Warnings "-register-all".

Inductive pyval : Type :=
| VNone
| VBool (b : bool)
| VInt (z : Z)
| VStr (s : string)
| VList (l : list pyval)
| VTuple (l : list pyval)
| VDict (d : list (string * pyval))
| VMock.

Definition dict := list (string * pyval).

(** Python truthiness, as used by [not x] and [if x]. *)
Definition truthy (v : pyval) : bool :=
  match v with
  | VNone => false
  | VBool b => b
  | VInt z => negb (Z.eqb z 0)
  | VStr s => negb (String.eqb s "")
  | VList l | VTuple l => match l with [] => false | _ => true end
  | VDict d => match d with [] => false | _ => true end
  | VMock => true
  end.

Definition type_name (v : pyval) : string :=
  match v with
  | VNone => "NoneType"
  | VBool _ => "bool"
  | VInt _ => "int"
  | VStr _ => "str"
  | VList _ => "list"
  | VTuple _ => "tuple"
  | VDict _ => "dict"
  | VMock => "Mock"
  end.

Fixpoint lookup (k : string) (d : dict) : option pyval :=
  match d with
  | [] => None
  | (k', v) :: d' => if String.eqb k k' then Some v else lookup k d'
  end.

Definition keys (d : dict) : list string := map fst d.

Definition dict_keys (v : pyval) : list string :=
  match v with VDict d => keys d | _ => [] end.

(** ** Exceptions (subclasses of [Exception]) *)

Inductive exn : Type :=
| KeyError (key : string)
| IndexError (msg : string)
| TypeError (msg : string)
| ValueError (msg : string)
| AttributeError (msg : string)
| ConnectionError (msg : string)
| JSONDecodeError (msg : string)
| OtherError (cls msg : string).

(** [str(e)]: a [KeyError] prints the repr of its key. *)
Definition exn_str (e : exn) : string :=
  match e with
  | KeyError k => ("'" ++ k ++ "'")%string
  | IndexError m | TypeError m | ValueError m | AttributeError m
  | ConnectionError m | JSONDecodeError m | OtherError _ m => m
  end.

Definition result (A : Type) : Type := (exn + A)%type.

(** Subscription [v[k]] with a string key and [v[i]] with an index. *)
Definition getitem (v : pyval) (k : string) : result pyval :=
  match v with
  | VDict d => match lookup k d with Some x => inr x | None => inl (KeyError k) end
  | VList _ => inl (TypeError "list indices must be integers or slices, not str")
  | VTuple _ => inl (TypeError "tuple indices must be integers or slices, not str")
  | VStr _ => inl (TypeError "string indices must be integers, not 'str'")
  | _ => inl (TypeError ("'" ++ type_name v ++ "' object is not subscriptable")%string)
  end.

Definition getindex0 (v : pyval) : result pyval :=
  match v with
  | VList (x :: _) | VTuple (x :: _) => inr x
  | VList [] => inl (IndexError "list index out of range")
  | VTuple [] => inl (IndexError "tuple index out of range")
  | VStr s => match s with
              | EmptyString => inl (IndexError "string index out of range")
              | String c _ => inr (VStr (String c EmptyString))
              end
  | VDict _ => inl (OtherError "KeyError" "0")     (* [KeyError(0)], whose [str] is [0] *)
  | _ => inl (TypeError ("'" ++ type_name v ++ "' object is not subscriptable")%string)
  end.

(** The method call [v.get(k, default)]: only dictionaries (and mock
    objects, which answer every method) have it. *)
Definition get_method (v : pyval) (k : string) (default : pyval) : result pyval :=
  match v with
  | VDict d => inr (match lookup k d with Some x => x | None => default end)
  | VMock => inr VMock
  | _ => inl (AttributeError ("'" ++ type_name v ++ "' object has no attribute 'get'")%string)
  end.

(** Unpacking [a, b = v]. *)
Definition unpack2 (v : pyval) : result (pyval * pyval) :=
  match v with
  | VTuple [a; b] | VList [a; b] => inr (a, b)
  | VTuple l | VList l =>
      inl (ValueError (if Nat.ltb (length l) 2 then "not enough values to unpack"
                       else "too many values to unpack"))
  | _ => inl (TypeError ("cannot unpack non-iterable " ++ type_name v ++ " object")%string)
  end.

(** ** Effects: the audit log and the calls to collaborators *)

Inductive level := INFO | WARNING | ERROR.

(** One line of [logs/audit.log]: an f-string is kept as its text with a
    hole [{}] for each interpolated value, and the values. *)
Record log_record := mkLog { levelname : level; message : string; args : list pyval }.

Inductive backend := Entra | AWS | SailPoint.
Inductive operation := Create | Update | Delete.
Inductive service := OPA | GraphToken | GraphUsers | SailPointAPI | OpenAI.

Inductive event :=
| CallAdvisory                              (* get_ai_access_recommendation entered *)
| CallPolicy                                (* opa_enforcer.enforce_policy called *)
| CallAdapter (b : backend) (op : operation) (* a backend module's function called *)
| Http (s : service).                       (* a request sent over the network *)

Inductive output := Log (r : log_record) | Ev (e : event).

Definition M (A : Type) : Type := (list output * result A)%type.

Definition ret {A} (a : A) : M A := ([], inr a).
Definition raise {A} (e : exn) : M A := ([], inl e).
Definition lift {A} (r : result A) : M A := ([], r).

Definition bind {A B} (m : M A) (f : A -> M B) : M B :=
  match m with
  | (o, inl e) => (o, inl e)
  | (o, inr a) => let (o', r) := f a in (o ++ o', r)
  end.

(** [try: m except Exception as e: h e] *)
Definition try_except {A} (m : M A) (h : exn -> M A) : M A :=
  match m with
  | (o, inl e) => let (o', r) := h e in (o ++ o', r)
  | (o, inr a) => (o, inr a)
  end.

Notation "x <- m ;; k" := (bind m (fun x => k))
  (at level 61, m at next level, right associativity).
Notation "' pat <- m ;; k" := (bind m (fun x => match x with pat => k end))
  (at level 61, pat pattern, m at next level, right associativity).
Notation "m ;;; k" := (bind m (fun _ => k))
  (at level 61, right associativity).

Definition emit (e : event) : M unit := ([Ev e], inr tt).
Definition logging (l : level) (msg : string) (a : list pyval) : M unit :=
  ([Log (mkLog l msg a)], inr tt).
Definition logging_info := logging INFO.
Definition logging_warning := logging WARNING.
Definition logging_error := logging ERROR.

Definition outputs {A} (m : M A) : list output := fst m.
Definition outcome {A} (m : M A) : result A := snd m.

Fixpoint records (o : list output) : list log_record :=
  match o with
  | [] => []
  | Log r :: o' => r :: records o'
  | Ev _ :: o' => records o'
  end.

Fixpoint events (o : list output) : list event :=
  match o with
  | [] => []
  | Log _ :: o' => events o'
  | Ev e :: o' => e :: events o'
  end.

Definition is_adapter_call (e : event) : bool :=
  match e with CallAdapter _ _ => true | _ => false end.
Definition is_policy_call (e : event) : bool :=
  match e with CallPolicy | Http OPA => true | _ => false end.
Definition is_advisory_call (e : event) : bool :=
  match e with CallAdvisory | Http OpenAI => true | _ => false end.

(** ** The network *)

(** What the services answer.  [requests.post(...)] followed by
    [response.json()] either raises or yields the decoded body; the two
    adapters that also read [status_code] get a pair. *)
Record world := mkWorld {
  opa_response : pyval -> result pyval;
  graph_token_response : result pyval;
  graph_users_response : pyval -> pyval -> result (pyval * pyval);
  sailpoint_response : pyval -> result (pyval * pyval);
  chat_completion : pyval -> result pyval
}.

(** ** logic/opa_enforcer.py *)

Definition deny_on_failure : pyval :=
  VDict [("allow", VBool false); ("reason", VStr "OPA policy check failed")].

Definition enforce_policy (w : world) (user_data : pyval) : M pyval :=
  try_except
    (emit (Http OPA) ;;;
     body <- lift (opa_response w (VDict [("input", user_data)])) ;;
     lift (get_method body "result" (VDict [])))
    (fun e =>
       logging_error "OPA policy enforcement failed: {}" [VStr (exn_str e)] ;;;
       ret deny_on_failure).

(** ** The shape both recommenders read: [response['choices'][0]['message']['content']] *)

Definition completion_content (response : pyval) : result pyval :=
  match getitem response "choices" with
  | inl e => inl e
  | inr choices =>
      match getindex0 choices with
      | inl e => inl e
      | inr first =>
          match getitem first "message" with
          | inl e => inl e
          | inr msg => getitem msg "content"
          end
      end
  end.

(** ** logic/ai_recommender.py *)

(** [user_profile.get(k, '')] on the request's JSON object. *)
Definition profile_get (user_profile : dict) (k : string) : pyval :=
  match lookup k user_profile with Some v => v | None => VStr "" end.

Definition get_access_recommendation (w : world) (user_profile : dict) : M pyval :=
  let prompt :=
    VTuple [VStr "Recommend roles and access for: Job Title: {} Department: {} Level: {} Region: {}";
            profile_get user_profile "title"; profile_get user_profile "department";
            profile_get user_profile "level"; profile_get user_profile "location"] in
  try_except
    (emit (Http OpenAI) ;;;
     response <- lift (chat_completion w prompt) ;;
     lift (completion_content response))
    (fun e =>
       logging_error "LLM error: {}" [VStr (exn_str e)] ;;;
       ret (VStr ("Error during LLM access recommendation: " ++ exn_str e)%string)).

(** ** provision/entra.py *)

Definition get_graph_token (w : world) : M pyval :=
  emit (Http GraphToken) ;;;
  r <- lift (graph_token_response w) ;;
  lift (getitem r "access_token").

Definition create_entra_user (w : world) (user : pyval) : M pyval :=
  token <- get_graph_token w ;;
  displayName <- lift (getitem user "name") ;;
  mailNickname <- lift (getitem user "nickname") ;;
  userPrincipalName <- lift (getitem user "email") ;;
  password <- lift (getitem user "temp_password") ;;
  let payload :=
    VDict [("accountEnabled", VBool true);
           ("displayName", displayName);
           ("mailNickname", mailNickname);
           ("userPrincipalName", userPrincipalName);
           ("passwordProfile",
            VDict [("forceChangePasswordNextSignIn", VBool true);
                   ("password", password)])] in
  emit (Http GraphUsers) ;;;
  ' (status_code, json) <- lift (graph_users_response w token payload) ;;
  ret (VTuple [status_code; json]).

(** ** provision/sailpoint.py *)

Definition push_to_sailpoint (w : world) (user : pyval) : M pyval :=
  try_except
    (name <- lift (getitem user "name") ;;
     email <- lift (getitem user "email") ;;
     displayName <- lift (getitem user "name") ;;
     default_id <- lift (getitem user "email") ;;
     externalId <- lift (get_method user "employee_id" default_id) ;;
     jobTitle <- lift (get_method user "title" VNone) ;;
     department <- lift (get_method user "department" VNone) ;;
     location <- lift (get_method user "location" VNone) ;;
     costcenter <- lift (get_method user "costcenter" VNone) ;;
     let payload :=
       VDict [("name", name); ("email", email); ("displayName", displayName);
              ("externalId", externalId);
              ("attributes",
               VDict [("jobTitle", jobTitle); ("department", department);
                      ("location", location); ("costcenter", costcenter)])] in
     emit (Http SailPointAPI) ;;;
     ' (status_code, json) <- lift (sailpoint_response w payload) ;;
     ret (VTuple [status_code; json]))
    (fun e =>
       logging_error "SailPoint API error: {}" [VStr (exn_str e)] ;;;
       ret (VTuple [VInt 500; VDict [("error", VStr (exn_str e))]])).

(** ** main.py: module initialisation *)

Inductive module_name :=
| provision_entra | provision_aws | provision_sailpoint | logic_opa_enforcer.

Definition module_path (m : module_name) : string :=
  match m with
  | provision_entra => "provision.entra"
  | provision_aws => "provision.aws"
  | provision_sailpoint => "provision.sailpoint"
  | logic_opa_enforcer => "logic.opa_enforcer"
  end.

(** The functions each source file defines. *)
Definition module_functions (m : module_name) : list string :=
  match m with
  | provision_entra => ["get_graph_token"; "create_entra_user"]
  | provision_aws => ["assign_aws_permission_set"]
  | provision_sailpoint => ["push_to_sailpoint"]
  | logic_opa_enforcer => ["enforce_policy"]
  end.

Definition has_attr (m : module_name) (attr : string) : bool :=
  existsb (String.eqb attr) (module_functions m).

(** What a global such as [entra] is bound to by [safe_import]: the module
    itself, or [mock.Mock()] when the import raised [ImportError]. *)
Inductive pymodule := RealModule | MockModule.

Definition safe_import (importable : bool) : pymodule :=
  if importable then RealModule else MockModule.

(** Modules and mock objects are both truthy, so [x if entra else y] is [x]. *)
Definition module_truthy (b : pymodule) : bool :=
  match b with RealModule => true | MockModule => true end.

Record globals := mkGlobals {
  entra : pymodule;
  aws : pymodule;
  sailpoint : pymodule;
  opa_enforcer : pymodule;
  openai : bool;                     (* [false] when [import openai] failed and [openai = None] *)
  OPENAI_API_KEY : option string     (* [os.getenv("OPENAI_API_KEY")] *)
}.

Definition no_attribute (m : module_name) (attr : string) : exn :=
  AttributeError ("module '" ++ module_path m ++ "' has no attribute '" ++ attr ++ "'")%string.

(** [x.attr.return_value = v]: on a mock it configures the call; on a real
    module it sets an attribute of the function object when the function
    exists and raises [AttributeError] when it does not. *)
Definition set_return_value (m : module_name) (b : pymodule) (attr : string) : result unit :=
  match b with
  | MockModule => inr tt
  | RealModule => if has_attr m attr then inr tt else inl (no_attribute m attr)
  end.

Fixpoint sequence (l : list (result unit)) : result unit :=
  match l with
  | [] => inr tt
  | inl e :: _ => inl e
  | inr _ :: l' => sequence l'
  end.

(** [isinstance(x, object)] holds of every object, so every assignment runs. *)
Definition patch_mock_returns (g : globals) : result unit :=
  sequence
    [ set_return_value logic_opa_enforcer (opa_enforcer g) "enforce_policy";
      set_return_value provision_entra (entra g) "create_entra_user";
      set_return_value provision_entra (entra g) "delete_entra_user";
      set_return_value provision_entra (entra g) "update_entra_user";
      set_return_value provision_aws (aws g) "create_user";
      set_return_value provision_aws (aws g) "delete_user";
      set_return_value provision_aws (aws g) "update_user";
      set_return_value provision_sailpoint (sailpoint g) "push_to_sailpoint";
      set_return_value provision_sailpoint (sailpoint g) "delete_user";
      set_return_value provision_sailpoint (sailpoint g) "update_user_attributes" ].

(** The values [patch_mock_returns] configures; any other call on a mock
    answers a fresh mock. *)
Definition mock_return_value (m : module_name) (attr : string) : pyval :=
  match m with
  | logic_opa_enforcer =>
      if String.eqb attr "enforce_policy" then VDict [("allow", VBool true)] else VMock
  | provision_entra =>
      if String.eqb attr "create_entra_user" then VTuple [VStr "success"; VStr "User created"]
      else if String.eqb attr "delete_entra_user" then VStr "success"
      else if String.eqb attr "update_entra_user" then VStr "success"
      else VMock
  | provision_aws =>
      if String.eqb attr "create_user" then VStr "success"
      else if String.eqb attr "delete_user" then VStr "success"
      else if String.eqb attr "update_user" then VStr "success"
      else VMock
  | provision_sailpoint =>
      if String.eqb attr "push_to_sailpoint" then VStr "User pushed"
      else if String.eqb attr "delete_user" then VStr "success"
      else if String.eqb attr "update_user_attributes" then VStr "success"
      else VMock
  end.

(** A one-argument call of a function the source file defines. *)
Definition call_function (w : world) (m : module_name) (attr : string) (arg : pyval) : M pyval :=
  match m with
  | provision_entra =>
      if String.eqb attr "create_entra_user" then create_entra_user w arg
      else raise (TypeError "get_graph_token() takes 0 positional arguments but 1 was given")
  | provision_aws =>
      raise (TypeError "assign_aws_permission_set() missing 2 required positional arguments")
  | provision_sailpoint => push_to_sailpoint w arg
  | logic_opa_enforcer => enforce_policy w arg
  end.

(** [module.attr(arg)] for a global bound by [safe_import]; [ev] records the
    call once the attribute has been found. *)
Definition call_attr (w : world) (m : module_name) (b : pymodule)
                     (attr : string) (ev : event) (arg : pyval) : M pyval :=
  match b with
  | MockModule => emit ev ;;; ret (mock_return_value m attr)
  | RealModule =>
      if has_attr m attr then emit ev ;;; call_function w m attr arg
      else raise (no_attribute m attr)
  end.

(** Loading [main.py]: four [safe_import]s, then [patch_mock_returns]. *)
Definition load_main (importable : module_name -> bool) (openai_importable : bool)
                     (api_key : option string) : result globals :=
  let g := {| entra := safe_import (importable provision_entra);
              aws := safe_import (importable provision_aws);
              sailpoint := safe_import (importable provision_sailpoint);
              opa_enforcer := safe_import (importable logic_opa_enforcer);
              openai := openai_importable;
              OPENAI_API_KEY := api_key |} in
  match patch_mock_returns g with
  | inl e => inl e
  | inr _ => inr g
  end.

(** ** main.py: the request schema *)

Record UserModel := mkUser {
  email : string;
  firstName : option string;
  lastName : option string;
  jobTitle : option string;
  department : option string;
  location : option string;
  employeeId : option string;
  managerId : option string;
  costcenter : option string;
  region : option string
}.

Definition optional (o : option string) : pyval :=
  match o with Some s => VStr s | None => VNone end.

(** [user.dict()] *)
Definition UserModel_dict (u : UserModel) : pyval :=
  VDict [("email", VStr (email u));
         ("firstName", optional (firstName u));
         ("lastName", optional (lastName u));
         ("jobTitle", optional (jobTitle u));
         ("department", optional (department u));
         ("location", optional (location u));
         ("employeeId", optional (employeeId u));
         ("managerId", optional (managerId u));
         ("costcenter", optional (costcenter u));
         ("region", optional (region u))].

(** An [Optional[str] = None] field of the request body.  A value that is
    neither a string nor null is refused (pydantic 1 would convert a number
    to a string instead). *)
Definition optional_field (d : dict) (k : string) : option (option string) :=
  match lookup k d with
  | None | Some VNone => Some None
  | Some (VStr s) => Some (Some s)
  | Some _ => None
  end.

(** Validation of the JSON body against [UserModel]: [email: str] is the
    only required field, and it is any string. *)
Definition UserModel_validate (body : pyval) : option UserModel :=
  match body with
  | VDict d =>
      match lookup "email" d with
      | Some (VStr e) =>
          match optional_field d "firstName", optional_field d "lastName",
                optional_field d "jobTitle", optional_field d "department",
                optional_field d "location", optional_field d "employeeId",
                optional_field d "managerId", optional_field d "costcenter",
                optional_field d "region" with
          | Some f, Some l, Some j, Some dp, Some lo, Some ei, Some mi, Some cc, Some rg =>
              Some (mkUser e f l j dp lo ei mi cc rg)
          | _, _, _, _, _, _, _, _, _ => None
          end
      | _ => None
      end
  | _ => None
  end.

(** ** main.py: the advisory helper and the handlers *)

Definition key_present (k : option string) : bool :=
  match k with Some s => negb (String.eqb s "") | None => false end.

Definition advisory_prompt (user_dict : pyval) : pyval :=
  VTuple [VStr "Given the following user profile, suggest access entitlements: {} Return a JSON with recommended entitlements.";
          user_dict].

Definition get_ai_access_recommendation (g : globals) (w : world) (user_dict : pyval) : M pyval :=
  emit CallAdvisory ;;;
  if negb (key_present (OPENAI_API_KEY g)) then
    ret (VDict [("error", VStr "Missing OpenAI API key")])
  else if negb (openai g) then
    ret (VDict [("error", VStr "openai module not found")])
  else
    try_except
      (emit (Http OpenAI) ;;;
       response <- lift (chat_completion w (advisory_prompt user_dict)) ;;
       result <- lift (completion_content response) ;;
       ret (VDict [("entitlements", result)]))
      (fun e =>
         logging_error "AI error: {}" [VStr (exn_str e)] ;;;
         ret (VDict [("error", VStr (exn_str e))])).

Definition provision_user (g : globals) (w : world) (user : UserModel) : M pyval :=
  logging_info "Received provisioning request for: {}" [VStr (email user)] ;;;
  ai_access <- get_ai_access_recommendation g w (UserModel_dict user) ;;
  logging_info "AI access recommendation: {}" [ai_access] ;;;
  policy_check <-
    (if module_truthy (opa_enforcer g)
     then call_attr w logic_opa_enforcer (opa_enforcer g) "enforce_policy" CallPolicy
                    (UserModel_dict user)
     else ret (VDict [("allow", VBool true)])) ;;
  allow <- lift (get_method policy_check "allow" (VBool false)) ;;
  if negb (truthy allow) then
    reason <- lift (get_method policy_check "reason" (VStr "Policy Violation")) ;;
    logging_warning "Access denied due to policy: {}" [reason] ;;;
    ret (VDict [("status", VStr "denied"); ("reason", reason)])
  else
    entra_pair <-
      (if module_truthy (entra g)
       then call_attr w provision_entra (entra g) "create_entra_user"
                      (CallAdapter Entra Create) (UserModel_dict user)
       else ret (VTuple [VStr "error"; VStr "module missing"])) ;;
    ' (entra_status, entra_result) <- lift (unpack2 entra_pair) ;;
    aws_status <-
      (if module_truthy (aws g)
       then call_attr w provision_aws (aws g) "create_user"
                      (CallAdapter AWS Create) (UserModel_dict user)
       else ret (VStr "module missing")) ;;
    sailpoint_result <-
      (if module_truthy (sailpoint g)
       then call_attr w provision_sailpoint (sailpoint g) "push_to_sailpoint"
                      (CallAdapter SailPoint Create) (UserModel_dict user)
       else ret (VStr "module missing")) ;;
    logging_info "Provisioning complete: Entra={}, AWS={}, SailPoint={}"
                 [entra_status; aws_status; sailpoint_result] ;;;
    ret (VDict [("entra_status", entra_status);
                ("entra_result", entra_result);
                ("aws_status", aws_status);
                ("ai_access", ai_access);
                ("policy_check", policy_check);
                ("sailpoint_result", sailpoint_result)]).

Definition deprovision_user (g : globals) (w : world) (user : UserModel) : M pyval :=
  entra_status <-
    (if module_truthy (entra g)
     then call_attr w provision_entra (entra g) "delete_entra_user"
                    (CallAdapter Entra Delete) (UserModel_dict user)
     else ret (VStr "module missing")) ;;
  aws_status <-
    (if module_truthy (aws g)
     then call_attr w provision_aws (aws g) "delete_user"
                    (CallAdapter AWS Delete) (UserModel_dict user)
     else ret (VStr "module missing")) ;;
  sailpoint_status <-
    (if module_truthy (sailpoint g)
     then call_attr w provision_sailpoint (sailpoint g) "delete_user"
                    (CallAdapter SailPoint Delete) (UserModel_dict user)
     else ret (VStr "module missing")) ;;
  logging_info "Deprovisioned user: {}, Entra={}, AWS={}, SailPoint={}"
               [VStr (email user); entra_status; aws_status; sailpoint_status] ;;;
  ret (VDict [("entra_status", entra_status);
              ("aws_status", aws_status);
              ("sailpoint_status", sailpoint_status)]).

Definition update_user (g : globals) (w : world) (user : UserModel) : M pyval :=
  entra_status <-
    (if module_truthy (entra g)
     then call_attr w provision_entra (entra g) "update_entra_user"
                    (CallAdapter Entra Update) (UserModel_dict user)
     else ret (VStr "module missing")) ;;
  aws_status <-
    (if module_truthy (aws g)
     then call_attr w provision_aws (aws g) "update_user"
                    (CallAdapter AWS Update) (UserModel_dict user)
     else ret (VStr "module missing")) ;;
  sailpoint_status <-
    (if module_truthy (sailpoint g)
     then call_attr w provision_sailpoint (sailpoint g) "update_user_attributes"
                    (CallAdapter SailPoint Update) (UserModel_dict user)
     else ret (VStr "module missing")) ;;
  logging_info "Updated user: {}, Entra={}, AWS={}, SailPoint={}"
               [VStr (email user); entra_status; aws_status; sailpoint_status] ;;;
  ret (VDict [("entra_status", entra_status);
              ("aws_status", aws_status);
              ("sailpoint_status", sailpoint_status)]).

(** ** The HTTP surface *)

(** [POST /provision/user], [/update/user], [/deprovision/user]. *)
Definition handler (op : operation) : globals -> world -> UserModel -> M pyval :=
  match op with
  | Create => provision_user
  | Update => update_user
  | Delete => deprovision_user
  end.

Inductive response :=
| Http200 (body : pyval)      (* the handler's return value *)
| Http422                     (* the body does not validate against [UserModel] *)
| Http500 (e : exn).          (* the handler raised *)

(** FastAPI validates the body before the handler runs; a handler that
    raises yields an internal server error. *)
Definition endpoint (op : operation) (g : globals) (w : world) (body : pyval)
  : list output * response :=
  match UserModel_validate body with
  | None => ([], Http422)
  | Some user =>
      let (o, r) := handler op g w user in
      (o, match r with inl e => Http500 e | inr v => Http200 v end)
  end.

(** The server between requests: the lines of [logs/audit.log] and the
    collaborator calls made so far. *)
Record server := mkServer { audit_log : list log_record; calls : list event }.

Definition serve (g : globals) (w : world) (op : operation) (body : pyval) (st : server)
  : response * server :=
  let (o, r) := endpoint op g w body in
  (r, {| audit_log := audit_log st ++ records o; calls := calls st ++ events o |}).

(** ** Concrete inputs used below *)

Definition all_mocks (key : option string) : globals :=
  {| entra := MockModule; aws := MockModule; sailpoint := MockModule;
     opa_enforcer := MockModule; openai := true; OPENAI_API_KEY := key |}.

Definition offline : world :=
  {| opa_response := fun _ => inl (ConnectionError "connection refused");
     graph_token_response := inl (ConnectionError "connection refused");
     graph_users_response := fun _ _ => inl (ConnectionError "connection refused");
     sailpoint_response := fun _ => inl (ConnectionError "connection refused");
     chat_completion := fun _ => inl (ConnectionError "connection refused") |}.

Definition alice : UserModel :=
  mkUser "alice@example.com" (Some "Alice") (Some "Ng") (Some "Engineer")
         (Some "R&D") (Some "Oslo") (Some "E-17") None None (Some "EU").

Definition alice_body : pyval := UserModel_dict alice.

(** ** Vocabulary of the statements *)

Definition adapter_calls (o : list output) : list event := filter is_adapter_call (events o).
Definition policy_calls (o : list output) : list event := filter is_policy_call (events o).
Definition advisory_calls (o : list output) : list event := filter is_advisory_call (events o).

(** The call [opa_enforcer.enforce_policy(user.dict())] of [provision_user]. *)
Definition policy_gate (g : globals) (w : world) (user : UserModel) : M pyval :=
  call_attr w logic_opa_enforcer (opa_enforcer g) "enforce_policy" CallPolicy
            (UserModel_dict user).

(** The policy service cannot be evaluated: the request or the decoding of
    its answer raises, or the answer is not a JSON object. *)
Definition policy_gate_fails (w : world) (user : UserModel) : Prop :=
  match opa_response w (VDict [("input", UserModel_dict user)]) with
  | inl _ => True
  | inr body => exists e, get_method body "result" (VDict []) = inl e
  end.

(** The ways the advisory helper of [main.py] fails, with the message it
    reports. *)
Inductive advisory_failure (g : globals) (w : world) (d : pyval) : string -> Prop :=
| missing_api_key :
    key_present (OPENAI_API_KEY g) = false ->
    advisory_failure g w d "Missing OpenAI API key"
| missing_module :
    key_present (OPENAI_API_KEY g) = true -> openai g = false ->
    advisory_failure g w d "openai module not found"
| transport_error e :
    key_present (OPENAI_API_KEY g) = true -> openai g = true ->
    chat_completion w (advisory_prompt d) = inl e ->
    advisory_failure g w d (exn_str e)
| malformed_response resp e :
    key_present (OPENAI_API_KEY g) = true -> openai g = true ->
    chat_completion w (advisory_prompt d) = inr resp ->
    completion_content resp = inl e ->
    advisory_failure g w d (exn_str e).

(** The part of [provision_user] after an allowing policy check, as a
    function of the two values computed before it. *)
Definition fan_out (g : globals) (w : world) (user : UserModel)
                   (ai_access policy_check : pyval) : M pyval :=
  entra_pair <-
    (if module_truthy (entra g)
     then call_attr w provision_entra (entra g) "create_entra_user"
                    (CallAdapter Entra Create) (UserModel_dict user)
     else ret (VTuple [VStr "error"; VStr "module missing"])) ;;
  ' (entra_status, entra_result) <- lift (unpack2 entra_pair) ;;
  aws_status <-
    (if module_truthy (aws g)
     then call_attr w provision_aws (aws g) "create_user"
                    (CallAdapter AWS Create) (UserModel_dict user)
     else ret (VStr "module missing")) ;;
  sailpoint_result <-
    (if module_truthy (sailpoint g)
     then call_attr w provision_sailpoint (sailpoint g) "push_to_sailpoint"
                    (CallAdapter SailPoint Create) (UserModel_dict user)
     else ret (VStr "module missing")) ;;
  logging_info "Provisioning complete: Entra={}, AWS={}, SailPoint={}"
               [entra_status; aws_status; sailpoint_result] ;;;
  ret (VDict [("entra_status", entra_status);
              ("entra_result", entra_result);
              ("aws_status", aws_status);
              ("ai_access", ai_access);
              ("policy_check", policy_check);
              ("sailpoint_result", sailpoint_result)]).

(** The function of each backend module that a handler calls. *)
Definition backend_module (b : backend) : module_name :=
  match b with
  | Entra => provision_entra
  | AWS => provision_aws
  | SailPoint => provision_sailpoint
  end.

Definition binding (g : globals) (b : backend) : pymodule :=
  match b with
  | Entra => entra g
  | AWS => aws g
  | SailPoint => sailpoint g
  end.

Definition operation_name (b : backend) (op : operation) : string :=
  match b, op with
  | Entra, Create => "create_entra_user"
  | Entra, Update => "update_entra_user"
  | Entra, Delete => "delete_entra_user"
  | AWS, Create => "create_user"
  | AWS, Update => "update_user"
  | AWS, Delete => "delete_user"
  | SailPoint, Create => "push_to_sailpoint"
  | SailPoint, Update => "update_user_attributes"
  | SailPoint, Delete => "delete_user"
  end.

(** The keys of the dictionary literal each handler returns, in order. *)
Definition aggregate_keys (op : operation) : list string :=
  match op with
  | Create => ["entra_status"; "entra_result"; "aws_status"; "ai_access";
               "policy_check"; "sailpoint_result"]
  | Update | Delete => ["entra_status"; "aws_status"; "sailpoint_status"]
  end.

Definition denial (reason : pyval) : pyval :=
  VDict [("status", VStr "denied"); ("reason", reason)].

(** The least any reading of a well-formed address asks for: an [@]. *)
Fixpoint has_at_sign (s : string) : bool :=
  match s with
  | EmptyString => false
  | String c s' => if Ascii.eqb c "@"%char then true else has_at_sign s'
  end.

(** The request body carries no string under [email]. *)
Definition email_missing (body : pyval) : Prop :=
  match body with
  | VDict d => match lookup "email" d with Some (VStr _) => False | _ => True end
  | _ => True
  end.

Definition empty_server : server := {| audit_log := []; calls := [] |}.

(** Replacing the advisory helper's inputs: the module, the key and the
    model's answers. *)
Definition with_advisory (g : globals) (module : bool) (key : option string) : globals :=
  {| entra := entra g; aws := aws g; sailpoint := sailpoint g;
     opa_enforcer := opa_enforcer g; openai := module; OPENAI_API_KEY := key |}.

Definition with_model (w : world) (model : pyval -> result pyval) : world :=
  {| opa_response := opa_response w;
     graph_token_response := graph_token_response w;
     graph_users_response := graph_users_response w;
     sailpoint_response := sailpoint_response w;
     chat_completion := model |}.

(** A result with its advisory field removed. *)
Definition without_advisory (r : result pyval) : result pyval :=
  match r with
  | inr (VDict d) =>
      inr (VDict (filter (fun kv => negb (String.eqb (fst kv) "ai_access")) d))
  | _ => r
  end.

(** *** Concrete worlds and bindings *)

Definition gate_only (key : option string) : globals :=
  {| entra := MockModule; aws := MockModule; sailpoint := MockModule;
     opa_enforcer := RealModule; openai := true; OPENAI_API_KEY := key |}.

Definition entra_bound : globals :=
  {| entra := RealModule; aws := MockModule; sailpoint := MockModule;
     opa_enforcer := MockModule; openai := true; OPENAI_API_KEY := None |}.

Definition sailpoint_bound : globals :=
  {| entra := MockModule; aws := MockModule; sailpoint := RealModule;
     opa_enforcer := MockModule; openai := true; OPENAI_API_KEY := None |}.

Definition answering (policy : pyval) : world :=
  {| opa_response := fun _ => inr policy;
     graph_token_response := inr (VDict [("access_token", VStr "eyJ0")]);
     graph_users_response := fun _ _ => inr (VInt 201, VDict [("id", VStr "u-1")]);
     sailpoint_response := fun _ => inr (VInt 201, VDict [("id", VStr "s-1")]);
     chat_completion := fun _ =>
       inr (VDict [("choices",
                    VList [VDict [("message",
                                   VDict [("content", VStr "roles: viewer")])]])]) |}.

(** The lines [provision_user] writes itself. *)
Definition received (u : UserModel) : output :=
  Log (mkLog INFO "Received provisioning request for: {}" [VStr (email u)]).
Definition recommended (ai : pyval) : output :=
  Log (mkLog INFO "AI access recommendation: {}" [ai]).
Definition refused (reason : pyval) : output :=
  Log (mkLog WARNING "Access denied due to policy: {}" [reason]).
Definition completed (a b c : pyval) : output :=
  Log (mkLog INFO "Provisioning complete: Entra={}, AWS={}, SailPoint={}" [a; b; c]).

(** ** main.py: the dashboard and its credentials *)

Definition is_ascii_char (c : ascii) : bool := Nat.ltb (nat_of_ascii c) 128.

Fixpoint is_ascii (s : string) : bool :=
  match s with
  | EmptyString => true
  | String c s' => is_ascii_char c && is_ascii s'
  end.

(** [secrets.compare_digest] on two [str]: their equality, and a
    [TypeError] when either holds a non-ASCII character. *)
Definition compare_digest (a b : string) : result bool :=
  if is_ascii a && is_ascii b then inr (String.eqb a b)
  else inl (TypeError "comparing strings with non-ASCII characters is not supported").

(** [os.getenv(name, default)] *)
Definition getenv (value : option string) (default : string) : string :=
  match value with Some v => v | None => default end.

Record environ := mkEnviron {
  env_DASHBOARD_USER : option string;
  env_DASHBOARD_PASS : option string
}.

Definition DASHBOARD_USER (env : environ) : string := getenv (env_DASHBOARD_USER env) "admin".
Definition DASHBOARD_PASS (env : environ) : string := getenv (env_DASHBOARD_PASS env) "adminpass".

Record HTTPBasicCredentials := mkCredentials { username : string; password : string }.

Record HTTPException := mkHTTPException {
  status_code : Z;
  detail : string;
  headers : list (string * string)
}.

(** What leaves a dependency or a route: an [HTTPException], which FastAPI
    turns into its response, or any other exception. *)
Inductive failure := Abort (h : HTTPException) | Uncaught (e : exn).

Definition unauthorized : HTTPException :=
  {| status_code := 401; detail := "Unauthorized";
     headers := [("WWW-Authenticate", "Basic")] |}.

Definition authenticate (env : environ) (credentials : HTTPBasicCredentials)
  : failure + unit :=
  match compare_digest (username credentials) (DASHBOARD_USER env) with
  | inl e => inl (Uncaught e)
  | inr correct_username =>
      match compare_digest (password credentials) (DASHBOARD_PASS env) with
      | inl e => inl (Uncaught e)
      | inr correct_password =>
          if negb (correct_username && correct_password)
          then inl (Abort unauthorized)
          else inr tt
      end
  end.

(** The text of the log file and of the page is a Python [str]: a
    sequence of code points. *)
Definition text := list N.

Definition code_points (s : string) : text := map N_of_ascii (list_ascii_of_string s).

(** The code points [str.strip()] removes: tab to carriage return, the
    separators 28 to 31, the space, U+0085, U+00A0, U+1680, U+2000 to
    U+200A, U+2028, U+2029, U+202F, U+205F and U+3000. *)
Definition is_space (c : N) : bool :=
  (N.leb 9 c && N.leb c 13) || (N.leb 28 c && N.leb c 32)
  || N.eqb c 133 || N.eqb c 160 || N.eqb c 5760
  || (N.leb 8192 c && N.leb c 8202)
  || N.eqb c 8232 || N.eqb c 8233 || N.eqb c 8239 || N.eqb c 8287 || N.eqb c 12288.

Fixpoint lstrip (s : text) : text :=
  match s with
  | [] => []
  | c :: s' => if is_space c then lstrip s' else s
  end.

Fixpoint rstrip (s : text) : text :=
  match s with
  | [] => []
  | c :: s' =>
      match rstrip s' with
      | [] => if is_space c then [] else [c]
      | r => c :: r
      end
  end.

Definition strip (s : text) : text := lstrip (rstrip s).

(** What [open("logs/audit.log", "r")] and [readlines()] give. *)
Inductive audit_file :=
| Missing                       (* [FileNotFoundError] *)
| Lines (logs : list text)
| Unreadable (e : exn).         (* any other exception of [open] or [readlines] *)

Definition log_div (log : text) : text :=
  code_points "<div>" ++ strip log ++ code_points "</div>".

(** [''.join(...)] over the reversed lines. *)
Definition formatted_logs (logs : list text) : text :=
  concat (map log_div (rev logs)).

Definition page_head : string := "
            <html>
                <head><title>Audit Log Dashboard</title></head>
                <body>
                    <h2>Audit Log</h2>
                    <form method='get'>
                        <input type='text' name='q' placeholder='Search logs...' />
                        <input type='submit' value='Search' />
                    </form>
                    <div style='font-family: monospace; white-space: pre-wrap;'>".

Definition page_tail : string := "</div>
                </body>
            </html>
        ".

Definition no_logs_page : string :=
  "<html><body><h2>No logs available yet.</h2></body></html>".

Definition dashboard (f : audit_file) : result text :=
  match f with
  | Lines logs => inr (code_points page_head ++ formatted_logs logs ++ code_points page_tail)
  | Missing => inr (code_points no_logs_page)
  | Unreadable e => inl e
  end.

(** [GET /dashboard]: the route depends on [authenticate]. *)
Definition get_dashboard (env : environ) (credentials : HTTPBasicCredentials)
                         (f : audit_file) : failure + text :=
  match authenticate env credentials with
  | inl r => inl r
  | inr _ =>
      match dashboard f with
      | inl e => inl (Uncaught e)
      | inr page => inr page
      end
  end.

(** [s] occurs in [t]. *)
Definition occurs (s t : text) : Prop :=
  exists pre post, t = pre ++ s ++ post.

(** A request sent to one of the three identity backends. *)
Definition is_backend_request (e : event) : bool :=
  match e with
  | Http GraphToken | Http GraphUsers | Http SailPointAPI => true
  | _ => false
  end.

Definition backend_requests (o : list output) : list event :=
  filter is_backend_request (events o).

(** ** Final_main.py *)

Module Final_main.

Inductive alias := entra | aws | sailpoint | ai_recommender | opa_enforcer.

Definition aliases : list alias := [entra; aws; sailpoint; ai_recommender; opa_enforcer].

Inductive package := provision | logic.

Definition package_name (p : package) : string :=
  match p with provision => "provision" | logic => "logic" end.

Definition package_eqb (p q : package) : bool :=
  match p, q with
  | provision, provision | logic, logic => true
  | _, _ => false
  end.

(** The dotted name each [safe_import] is given: its package and its
    submodule. *)
Definition top_level (a : alias) : package :=
  match a with
  | entra | aws | sailpoint => provision
  | ai_recommender | opa_enforcer => logic
  end.

Definition submodule (a : alias) : string :=
  match a with
  | entra => "entra"
  | aws => "aws"
  | sailpoint => "sailpoint"
  | ai_recommender => "ai_recommender"
  | opa_enforcer => "opa_enforcer"
  end.

Definition alias_name (a : alias) : string := submodule a.

(** [__import__(module_name)] without [fromlist] returns the top-level
    package, which is what the alias is bound to; on [ImportError] only a
    warning is printed and the alias stays unbound.  The state after the
    five imports is the set of submodules that were imported. *)
Definition globals := alias -> bool.

Definition safe_import (g : globals) (a : alias) : option package :=
  if g a then Some (top_level a) else None.

Definition name_error (a : alias) : exn :=
  OtherError "NameError" ("name '" ++ alias_name a ++ "' is not defined")%string.

(** Reading the global [a]. *)
Definition global (g : globals) (a : alias) : result package :=
  match safe_import g a with
  | Some p => inr p
  | None => inl (name_error a)
  end.

(** The attributes of a package object are its imported submodules. *)
Definition is_submodule (g : globals) (p : package) (attr : string) : bool :=
  existsb (fun a => g a && package_eqb (top_level a) p && String.eqb attr (submodule a))
          aliases.

(** [p.attr(arg)] *)
Definition call_attr (g : globals) (p : package) (attr : string) (arg : pyval) : M pyval :=
  if is_submodule g p attr
  then raise (TypeError "'module' object is not callable")
  else raise (AttributeError ("module '" ++ package_name p ++ "' has no attribute '"
                              ++ attr ++ "'")%string).

(** [a.attr(arg) if a else otherwise]; a module object is truthy. *)
Definition call_if (g : globals) (a : alias) (attr : string) (arg otherwise : pyval)
  : M pyval :=
  p <- lift (global g a) ;;
  if (match p with provision | logic => true end)
  then p' <- lift (global g a) ;; call_attr g p' attr arg
  else ret otherwise.

(** The handlers read the body with [await request.json()], which raises
    on a body that is not JSON. *)
Definition provision_user (g : globals) (request_json : result pyval) : M pyval :=
  user <- lift request_json ;;
  shown <- lift (get_method user "email" (VStr "unknown")) ;;
  logging_info "Received provisioning request for: {}" [shown] ;;;
  ai_access <- call_if g ai_recommender "get_access_recommendation" user (VDict []) ;;
  logging_info "AI access recommendation: {}" [ai_access] ;;;
  policy_check <- call_if g opa_enforcer "enforce_policy" user
                          (VDict [("allow", VBool true)]) ;;
  allow <- lift (get_method policy_check "allow" (VBool false)) ;;
  if negb (truthy allow) then
    reason <- lift (get_method policy_check "reason" (VStr "Policy Violation")) ;;
    logging_warning "Access denied due to policy: {}" [reason] ;;;
    ret (VDict [("status", VStr "denied"); ("reason", reason)])
  else
    entra_pair <- call_if g entra "create_entra_user" user
                          (VTuple [VStr "error"; VStr "module missing"]) ;;
    ' (entra_status, entra_result) <- lift (unpack2 entra_pair) ;;
    aws_status <- call_if g aws "create_user" user (VStr "module missing") ;;
    sailpoint_result <- call_if g sailpoint "push_to_sailpoint" user
                                (VStr "module missing") ;;
    logging_info "Provisioning complete: Entra={}, AWS={}, SailPoint={}"
                 [entra_status; aws_status; sailpoint_result] ;;;
    ret (VDict [("entra_status", entra_status);
                ("entra_result", entra_result);
                ("aws_status", aws_status);
                ("ai_access", ai_access);
                ("policy_check", policy_check);
                ("sailpoint_result", sailpoint_result)]).

Definition deprovision_user (g : globals) (request_json : result pyval) : M pyval :=
  user <- lift request_json ;;
  entra_status <- call_if g entra "delete_entra_user" user (VStr "module missing") ;;
  aws_status <- call_if g aws "delete_user" user (VStr "module missing") ;;
  sailpoint_status <- call_if g sailpoint "delete_user" user (VStr "module missing") ;;
  shown <- lift (get_method user "email" (VStr "unknown")) ;;
  logging_info "Deprovisioned user: {}, Entra={}, AWS={}, SailPoint={}"
               [shown; entra_status; aws_status; sailpoint_status] ;;;
  ret (VDict [("entra_status", entra_status);
              ("aws_status", aws_status);
              ("sailpoint_status", sailpoint_status)]).

Definition update_user (g : globals) (request_json : result pyval) : M pyval :=
  user <- lift request_json ;;
  entra_status <- call_if g entra "update_entra_user" user (VStr "module missing") ;;
  aws_status <- call_if g aws "update_user" user (VStr "module missing") ;;
  sailpoint_status <- call_if g sailpoint "update_user_attributes" user
                              (VStr "module missing") ;;
  shown <- lift (get_method user "email" (VStr "unknown")) ;;
  logging_info "Updated user: {}, Entra={}, AWS={}, SailPoint={}"
               [shown; entra_status; aws_status; sailpoint_status] ;;;
  ret (VDict [("entra_status", entra_status);
              ("aws_status", aws_status);
              ("sailpoint_status", sailpoint_status)]).

Definition handler (op : operation) : globals -> result pyval -> M pyval :=
  match op with
  | Create => provision_user
  | Update => update_user
  | Delete => deprovision_user
  end.

End Final_main.

(** Two profiles that [get_access_recommendation] cannot tell apart. *)
Definition same_prompt_fields (p q : dict) : Prop :=
  profile_get p "title" = profile_get q "title"
  /\ profile_get p "department" = profile_get q "department"
  /\ profile_get p "level" = profile_get q "level"
  /\ profile_get p "location" = profile_get q "location".

(** The payload [create_entra_user] sends for a profile with its four keys. *)
Definition entra_payload (name nickname mail temp_password : pyval) : pyval :=
  VDict [("accountEnabled", VBool true);
         ("displayName", name);
         ("mailNickname", nickname);
         ("userPrincipalName", mail);
         ("passwordProfile",
          VDict [("forceChangePasswordNextSignIn", VBool true);
                 ("password", temp_password)])].

(** The first of the keys [create_entra_user] subscripts that is missing. *)
Fixpoint first_missing (ks : list string) (d : dict) : option string :=
  match ks with
  | [] => None
  | k :: ks' => match lookup k d with None => Some k | Some _ => first_missing ks' d end
  end.

Definition entra_keys : list string := ["name"; "nickname"; "email"; "temp_password"].

(** * Properties *)

(** ** The writer monad *)

Lemma records_app (o1 o2 : list output) : records (o1 ++ o2) = records o1 ++ records o2.
Proof.
  induction o1 as [|[r|e] o1 IH]; simpl; [reflexivity | now rewrite IH | exact IH].
Qed.

Lemma events_app (o1 o2 : list output) : events (o1 ++ o2) = events o1 ++ events o2.
Proof.
  induction o1 as [|[r|e] o1 IH]; simpl; [reflexivity | exact IH | now rewrite IH].
Qed.

Lemma adapter_calls_app o1 o2 : adapter_calls (o1 ++ o2) = adapter_calls o1 ++ adapter_calls o2.
Proof. unfold adapter_calls. now rewrite events_app, filter_app. Qed.

Lemma policy_calls_app o1 o2 : policy_calls (o1 ++ o2) = policy_calls o1 ++ policy_calls o2.
Proof. unfold policy_calls. now rewrite events_app, filter_app. Qed.

Lemma advisory_calls_app o1 o2 : advisory_calls (o1 ++ o2) = advisory_calls o1 ++ advisory_calls o2.
Proof. unfold advisory_calls. now rewrite events_app, filter_app. Qed.

(** ** The collaborators *)

(** [enforce_policy] catches every exception of its body. *)
Lemma enforce_policy_cases w d :
  (exists body v,
      opa_response w (VDict [("input", d)]) = inr body /\
      get_method body "result" (VDict []) = inr v /\
      enforce_policy w d = ([Ev (Http OPA)], inr v))
  \/ (exists e,
      (opa_response w (VDict [("input", d)]) = inl e \/
       exists body, opa_response w (VDict [("input", d)]) = inr body /\
                    get_method body "result" (VDict []) = inl e) /\
      enforce_policy w d
      = ([Ev (Http OPA);
          Log (mkLog ERROR "OPA policy enforcement failed: {}" [VStr (exn_str e)])],
         inr deny_on_failure)).
Proof.
  unfold enforce_policy.
  destruct (opa_response w (VDict [("input", d)])) as [e|body] eqn:Hr.
  - right. exists e. split; [now left|]. reflexivity.
  - destruct (get_method body "result" (VDict [])) as [e|v] eqn:Hg.
    + right. exists e. split; [right; now exists body|].
      cbn. rewrite Hg. reflexivity.
    + left. exists body, v. repeat split; trivial. cbn. rewrite Hg. reflexivity.
Qed.

Lemma policy_gate_returns g w u :
  exists o pc, policy_gate g w u = (Ev CallPolicy :: o, inr pc)
               /\ adapter_calls o = [] /\ advisory_calls o = [].
Proof.
  unfold policy_gate, call_attr. destruct (opa_enforcer g).
  - cbn -[enforce_policy UserModel_dict].
    destruct (enforce_policy_cases w (UserModel_dict u))
      as [(body & v & _ & _ & ->) | (e & _ & ->)]; eauto.
  - cbn. eauto.
Qed.

(** The advisory helper of [main.py] returns in every case. *)
Lemma advisory_cases g w d :
  (exists msg, advisory_failure g w d msg /\
     exists o, get_ai_access_recommendation g w d
               = (Ev CallAdvisory :: o, inr (VDict [("error", VStr msg)]))
               /\ adapter_calls o = [] /\ policy_calls o = [])
  \/ (exists resp content,
        chat_completion w (advisory_prompt d) = inr resp /\
        completion_content resp = inr content /\
        get_ai_access_recommendation g w d
        = ([Ev CallAdvisory; Ev (Http OpenAI)], inr (VDict [("entitlements", content)]))).
Proof.
  unfold get_ai_access_recommendation.
  destruct (key_present (OPENAI_API_KEY g)) eqn:Hk; cbn -[completion_content].
  2:{ left. eexists. split; [now apply missing_api_key|]. now exists []. }
  destruct (openai g) eqn:Ho; cbn -[completion_content].
  2:{ left. eexists. split; [now apply missing_module|]. now exists []. }
  destruct (chat_completion w (advisory_prompt d)) as [e|resp] eqn:Hc; cbn -[completion_content].
  { left. exists (exn_str e). split; [now apply transport_error|]. eexists; repeat split; reflexivity. }
  destruct (completion_content resp) as [e|content] eqn:Hm; cbn -[completion_content].
  { left. exists (exn_str e). split; [now apply (malformed_response g w d resp e)|].
    eexists; repeat split; reflexivity. }
  right. now exists resp, content.
Qed.

Lemma advisory_returns g w d :
  exists o v, get_ai_access_recommendation g w d = (Ev CallAdvisory :: o, inr v)
              /\ adapter_calls o = [] /\ policy_calls o = [].
Proof.
  destruct (advisory_cases g w d)
    as [(msg & _ & o & -> & ? & ?) | (resp & c & _ & _ & ->)]; eauto 6.
Qed.

(** ** The shape of a run of [provision_user] *)

Lemma module_truthy_true b : module_truthy b = true.
Proof. now destruct b. Qed.

Lemma provision_user_fan_out g w u :
  provision_user g w u =
  (logging_info "Received provisioning request for: {}" [VStr (email u)] ;;;
   ai_access <- get_ai_access_recommendation g w (UserModel_dict u) ;;
   logging_info "AI access recommendation: {}" [ai_access] ;;;
   policy_check <- policy_gate g w u ;;
   allow <- lift (get_method policy_check "allow" (VBool false)) ;;
   if negb (truthy allow) then
     reason <- lift (get_method policy_check "reason" (VStr "Policy Violation")) ;;
     logging_warning "Access denied due to policy: {}" [reason] ;;;
     ret (denial reason)
   else fan_out g w u ai_access policy_check).
Proof.
  unfold provision_user, policy_gate. now rewrite module_truthy_true.
Qed.

Lemma provision_user_run g w u oa ai og pc :
  get_ai_access_recommendation g w (UserModel_dict u) = (oa, inr ai) ->
  policy_gate g w u = (og, inr pc) ->
  provision_user g w u =
    match get_method pc "allow" (VBool false) with
    | inl e => (received u :: oa ++ recommended ai :: og, inl e)
    | inr a =>
        if negb (truthy a) then
          match get_method pc "reason" (VStr "Policy Violation") with
          | inl e => (received u :: oa ++ recommended ai :: og, inl e)
          | inr reason =>
              (received u :: oa ++ recommended ai :: og ++ [refused reason],
               inr (denial reason))
          end
        else (received u :: oa ++ recommended ai :: og ++ outputs (fan_out g w u ai pc),
              outcome (fan_out g w u ai pc))
    end.
Proof.
  intros Ha Hg. rewrite provision_user_fan_out, Ha, Hg.
  destruct (get_method pc "allow" (VBool false)) as [e|a] eqn:Hallow;
    cbn -[fan_out get_method truthy]; rewrite Hallow; cbn -[fan_out get_method truthy].
  - now rewrite app_nil_r.
  - destruct (negb (truthy a)).
    + destruct (get_method pc "reason" (VStr "Policy Violation")); cbn.
      * now rewrite app_nil_r.
      * reflexivity.
    + now destruct (fan_out g w u ai pc).
Qed.

(** ** The backend adapters on a validated profile *)

Lemma try_except_returns {A} (m : M A) (h : exn -> M A) :
  (forall e, exists o v, h e = (o, inr v)) ->
  exists o v, try_except m h = (o, inr v).
Proof.
  intros Hh. destruct m as [o [e|a]]; cbn; [|eauto].
  destruct (Hh e) as (o' & v & ->). eauto.
Qed.

(** [user.dict()] has exactly the ten fields of the schema. *)
Lemma UserModel_dict_keys u :
  dict_keys (UserModel_dict u)
  = ["email"; "firstName"; "lastName"; "jobTitle"; "department"; "location";
     "employeeId"; "managerId"; "costcenter"; "region"].
Proof. reflexivity. Qed.

Lemma UserModel_no_name u : getitem (UserModel_dict u) "name" = inl (KeyError "name").
Proof. reflexivity. Qed.

Lemma create_entra_user_run w u :
  create_entra_user w (UserModel_dict u)
  = match outcome (get_graph_token w) with
    | inl e => ([Ev (Http GraphToken)], inl e)
    | inr _ => ([Ev (Http GraphToken)], inl (KeyError "name"))
    end.
Proof.
  unfold create_entra_user, get_graph_token.
  destruct (graph_token_response w) as [e|r]; cbn; [reflexivity|].
  now destruct (getitem r "access_token").
Qed.

Lemma create_entra_user_raises w u :
  exists e, create_entra_user w (UserModel_dict u) = ([Ev (Http GraphToken)], inl e).
Proof.
  rewrite create_entra_user_run. destruct (outcome (get_graph_token w)); eauto.
Qed.

(** [push_to_sailpoint] converts every exception of its body into a value. *)
Lemma push_to_sailpoint_returns w user :
  exists o v, push_to_sailpoint w user = (o, inr v).
Proof.
  unfold push_to_sailpoint. apply try_except_returns. intros e. cbn. eauto.
Qed.

Lemma push_to_sailpoint_run w u :
  push_to_sailpoint w (UserModel_dict u)
  = ([Log (mkLog ERROR "SailPoint API error: {}" [VStr "'name'"])],
     inr (VTuple [VInt 500; VDict [("error", VStr "'name'")]])).
Proof. reflexivity. Qed.

(** The three ways the fan-out of [provision_user] ends. *)
Lemma fan_out_cases g w u ai pc :
  (entra g = RealModule /\
   exists e, fan_out g w u ai pc
             = ([Ev (CallAdapter Entra Create); Ev (Http GraphToken)], inl e))
  \/ (entra g = MockModule /\ aws g = RealModule /\
      fan_out g w u ai pc
      = ([Ev (CallAdapter Entra Create)], inl (no_attribute provision_aws "create_user")))
  \/ (entra g = MockModule /\ aws g = MockModule /\
      exists os v,
        policy_calls os = [] /\ advisory_calls os = [] /\ adapter_calls os = [] /\
        fan_out g w u ai pc
        = (Ev (CallAdapter Entra Create) :: Ev (CallAdapter AWS Create)
             :: Ev (CallAdapter SailPoint Create)
             :: os ++ [completed (VStr "success") (VStr "success") v],
           inr (VDict [("entra_status", VStr "success");
                       ("entra_result", VStr "User created");
                       ("aws_status", VStr "success");
                       ("ai_access", ai);
                       ("policy_check", pc);
                       ("sailpoint_result", v)]))).
Proof.
  unfold fan_out.
  destruct (entra g) eqn:He.
  - left. split; [reflexivity|].
    destruct (create_entra_user_raises w u) as (e & Hc). exists e.
    cbn -[create_entra_user UserModel_dict]. now rewrite Hc.
  - right. destruct (aws g) eqn:Ha.
    + left. now repeat split.
    + right. repeat split.
      destruct (sailpoint g) eqn:Hs.
      * eexists _, _. repeat split; reflexivity.
      * exists [], (VStr "User pushed"). now repeat split.
Qed.


(** ** Rewriting the call filters *)

Lemma adapter_calls_log r o : adapter_calls (Log r :: o) = adapter_calls o.
Proof. reflexivity. Qed.
Lemma policy_calls_log r o : policy_calls (Log r :: o) = policy_calls o.
Proof. reflexivity. Qed.
Lemma advisory_calls_log r o : advisory_calls (Log r :: o) = advisory_calls o.
Proof. reflexivity. Qed.

Lemma adapter_calls_ev e o :
  adapter_calls (Ev e :: o) = (if is_adapter_call e then [e] else []) ++ adapter_calls o.
Proof. unfold adapter_calls. cbn. now destruct (is_adapter_call e). Qed.
Lemma policy_calls_ev e o :
  policy_calls (Ev e :: o) = (if is_policy_call e then [e] else []) ++ policy_calls o.
Proof. unfold policy_calls. cbn. now destruct (is_policy_call e). Qed.
Lemma advisory_calls_ev e o :
  advisory_calls (Ev e :: o) = (if is_advisory_call e then [e] else []) ++ advisory_calls o.
Proof. unfold advisory_calls. cbn. now destruct (is_advisory_call e). Qed.

Lemma events_log r o : events (Log r :: o) = events o.
Proof. reflexivity. Qed.
Lemma events_ev e o : events (Ev e :: o) = e :: events o.
Proof. reflexivity. Qed.
Lemma records_log r o : records (Log r :: o) = r :: records o.
Proof. reflexivity. Qed.
Lemma records_ev e o : records (Ev e :: o) = records o.
Proof. reflexivity. Qed.

Lemma adapter_calls_nil : adapter_calls [] = [].
Proof. reflexivity. Qed.
Lemma policy_calls_nil : policy_calls [] = [].
Proof. reflexivity. Qed.
Lemma advisory_calls_nil : advisory_calls [] = [].
Proof. reflexivity. Qed.

Create Rewrite HintDb calls.
#[local] Hint Rewrite adapter_calls_app policy_calls_app advisory_calls_app
  adapter_calls_log policy_calls_log advisory_calls_log
  adapter_calls_ev policy_calls_ev advisory_calls_ev
  adapter_calls_nil policy_calls_nil advisory_calls_nil
  records_app events_app events_log events_ev records_log records_ev : calls.

Ltac calls :=
  unfold outputs, outcome, received, recommended, refused, completed;
  cbn [fst snd app];
  autorewrite with calls; cbn [is_adapter_call is_policy_call is_advisory_call app].

(** ** Update and delete *)

Lemma update_user_run g w u :
  update_user g w u =
  match entra g, aws g, sailpoint g with
  | RealModule, _, _ => ([], inl (no_attribute provision_entra "update_entra_user"))
  | MockModule, RealModule, _ =>
      ([Ev (CallAdapter Entra Update)], inl (no_attribute provision_aws "update_user"))
  | MockModule, MockModule, RealModule =>
      ([Ev (CallAdapter Entra Update); Ev (CallAdapter AWS Update)],
       inl (no_attribute provision_sailpoint "update_user_attributes"))
  | MockModule, MockModule, MockModule =>
      ([Ev (CallAdapter Entra Update); Ev (CallAdapter AWS Update);
        Ev (CallAdapter SailPoint Update);
        Log (mkLog INFO "Updated user: {}, Entra={}, AWS={}, SailPoint={}"
                   [VStr (email u); VStr "success"; VStr "success"; VStr "success"])],
       inr (VDict [("entra_status", VStr "success"); ("aws_status", VStr "success");
                   ("sailpoint_status", VStr "success")]))
  end.
Proof.
  unfold update_user. now destruct (entra g), (aws g), (sailpoint g).
Qed.

Lemma deprovision_user_run g w u :
  deprovision_user g w u =
  match entra g, aws g, sailpoint g with
  | RealModule, _, _ => ([], inl (no_attribute provision_entra "delete_entra_user"))
  | MockModule, RealModule, _ =>
      ([Ev (CallAdapter Entra Delete)], inl (no_attribute provision_aws "delete_user"))
  | MockModule, MockModule, RealModule =>
      ([Ev (CallAdapter Entra Delete); Ev (CallAdapter AWS Delete)],
       inl (no_attribute provision_sailpoint "delete_user"))
  | MockModule, MockModule, MockModule =>
      ([Ev (CallAdapter Entra Delete); Ev (CallAdapter AWS Delete);
        Ev (CallAdapter SailPoint Delete);
        Log (mkLog INFO "Deprovisioned user: {}, Entra={}, AWS={}, SailPoint={}"
                   [VStr (email u); VStr "success"; VStr "success"; VStr "success"])],
       inr (VDict [("entra_status", VStr "success"); ("aws_status", VStr "success");
                   ("sailpoint_status", VStr "success")]))
  end.
Proof.
  unfold deprovision_user. now destruct (entra g), (aws g), (sailpoint g).
Qed.

(** ** Loading [main.py] *)

(** [patch_mock_returns] dereferences [entra.delete_entra_user],
    [aws.create_user] and [sailpoint.delete_user], which the backend
    source files do not define: loading completes only when the three
    backend globals are mock objects. *)
Lemma patch_mock_returns_backends g :
  patch_mock_returns g = inr tt <->
  entra g = MockModule /\ aws g = MockModule /\ sailpoint g = MockModule.
Proof.
  unfold patch_mock_returns.
  destruct (opa_enforcer g), (entra g), (aws g), (sailpoint g); cbn;
    split; intros H; try discriminate; try easy;
    destruct H as (? & ? & ?); discriminate.
Qed.

Lemma load_main_backends importable oa key g :
  load_main importable oa key = inr g ->
  entra g = MockModule /\ aws g = MockModule /\ sailpoint g = MockModule.
Proof.
  unfold load_main.
  destruct (patch_mock_returns _) as [e|[]] eqn:Hp; [discriminate|].
  intros [= <-]. now apply patch_mock_returns_backends.
Qed.

(** ** The claims *)

(** With the Entra adapter of the sources bound, a Create request is
    denied or fails: it never yields an aggregate. *)
Lemma entra_adapter_never_provisions g w u r :
  entra g = RealModule ->
  outcome (provision_user g w u) = inr r ->
  exists reason, r = denial reason.
Proof.
  intros He.
  destruct (advisory_returns g w (UserModel_dict u)) as (oa & ai & Hadv & _).
  destruct (policy_gate_returns g w u) as (og & pc & Hgate & _).
  rewrite (provision_user_run _ _ _ _ _ _ _ Hadv Hgate).
  destruct (get_method pc "allow" (VBool false)) as [e|a]; [discriminate|].
  destruct (negb (truthy a)).
  - destruct (get_method pc "reason" (VStr "Policy Violation")) as [e|reason];
      [discriminate|].
    intros [= <-]. now exists reason.
  - destruct (fan_out_cases g w u ai pc)
      as [(_ & e & ->) | [(He' & _) | (He' & _)]];
      [discriminate | congruence | congruence].
Qed.

(** C1 (isolation of a failing backend adapter).  The claim asks that an
    exception of one adapter call becomes that backend's error outcome, the
    other two outcomes staying in the result, and that nothing is re-raised.
    With the adapter of [provision/entra.py] bound to [entra], the
    [KeyError] of [create_entra_user] leaves [provision_user]: AWS and
    SailPoint are not called, no result is returned and the endpoint
    answers with an internal server error.  The same holds for update and
    delete, where the lookup of the missing function raises.  The sibling
    adapter [push_to_sailpoint] does what the claim asks: bound to
    [sailpoint], its [KeyError] becomes the outcome [(500, {error})] and
    the other two outcomes are in the result.  (The handlers are run here
    on the bindings named; [main.py] as it stands finishes loading only
    with three mock backends, [load_main_backends], whose calls do not
    raise.) *)
Theorem C1_entra_exception_leaves_endpoint :
  let w := answering (VDict []) in
  provision_user entra_bound w alice
  = ([received alice; Ev CallAdvisory;
      recommended (VDict [("error", VStr "Missing OpenAI API key")]);
      Ev CallPolicy; Ev (CallAdapter Entra Create); Ev (Http GraphToken)],
     inl (KeyError "name"))
  /\ fst (serve entra_bound w Create alice_body empty_server) = Http500 (KeyError "name")
  /\ fst (serve entra_bound w Update alice_body empty_server)
     = Http500 (no_attribute provision_entra "update_entra_user")
  /\ fst (serve entra_bound w Delete alice_body empty_server)
     = Http500 (no_attribute provision_entra "delete_entra_user")
  /\ fst (serve sailpoint_bound w Create alice_body empty_server)
     = Http200 (VDict [("entra_status", VStr "success");
                       ("entra_result", VStr "User created");
                       ("aws_status", VStr "success");
                       ("ai_access", VDict [("error", VStr "Missing OpenAI API key")]);
                       ("policy_check", VDict [("allow", VBool true)]);
                       ("sailpoint_result",
                        VTuple [VInt 500; VDict [("error", VStr "'name'")]])]).
Proof. repeat split. Qed.

(** C2 (fail-closed policy gate).  For every Create request, when the
    policy service cannot be evaluated (the request or the decoding of the
    answer raises, or the answer has no [get]), [enforce_policy] answers
    [allow = False] with the reason "OPA policy check failed": the
    response is that denial and no backend adapter is called. *)
Theorem C2_policy_failure_is_denial g w u :
  opa_enforcer g = RealModule ->
  policy_gate_fails w u ->
  outcome (policy_gate g w u) = inr deny_on_failure
  /\ outcome (provision_user g w u) = inr (denial (VStr "OPA policy check failed"))
  /\ adapter_calls (outputs (provision_user g w u)) = [].
Proof.
  intros Hg Hf.
  assert (Hgate : exists e, policy_gate g w u
            = ([Ev CallPolicy; Ev (Http OPA);
                Log (mkLog ERROR "OPA policy enforcement failed: {}" [VStr (exn_str e)])],
               inr deny_on_failure)).
  { unfold policy_gate, call_attr. rewrite Hg. cbn -[enforce_policy UserModel_dict].
    unfold policy_gate_fails in Hf.
    destruct (enforce_policy_cases w (UserModel_dict u))
      as [(body & v & Hb & Hv & _) | (e & _ & ->)].
    - rewrite Hb in Hf. destruct Hf as (e & He). congruence.
    - now exists e. }
  destruct Hgate as (e & Hgate).
  destruct (advisory_returns g w (UserModel_dict u)) as (oa & ai & Ha & Hoa & _).
  rewrite (provision_user_run _ _ _ _ _ _ _ Ha Hgate), Hgate. cbn [get_method deny_on_failure lookup String.eqb Ascii.eqb Bool.eqb truthy negb].
  repeat split.
  calls. now rewrite Hoa.
Qed.

Lemma C2_policy_failure_is_denial_witness :
  outcome (policy_gate (gate_only None) offline alice) = inr deny_on_failure
  /\ outcome (provision_user (gate_only None) offline alice)
  = inr (denial (VStr "OPA policy check failed"))
  /\ adapter_calls (outputs (provision_user (gate_only None) offline alice)) = [].
Proof.
  apply (C2_policy_failure_is_denial (gate_only None) offline alice).
  - reflexivity.
  - exact I.
Defined.

(** C3 as stated (a denied Create request does not invoke the Advisory
    Recommender) fails: [provision_user] calls the recommender before the
    policy check.  Here the policy service answers [allow = false] with
    the reason "region blocked"; the response is the denial, and the model
    has been queried all the same. *)
Lemma C3_advisory_invoked_before_denial :
  let blocked := VDict [("result", VDict [("allow", VBool false);
                                          ("reason", VStr "region blocked")])] in
  let m := provision_user (gate_only (Some "sk-test")) (answering blocked) alice in
  outcome m = inr (denial (VStr "region blocked"))
  /\ advisory_calls (outputs m) = [CallAdvisory; Http OpenAI]
  /\ events (outputs m) = [CallAdvisory; Http OpenAI; CallPolicy; Http OPA].
Proof. repeat split. Qed.

(** C3, amended.  For every Create request that the Policy Gate denies
    (the value it returns has no truthy [allow]), no backend adapter is
    called and the response is exactly [{status: denied, reason}], with
    no backend outcome; the Advisory Recommender has been invoked first,
    before the gate, and its value is not in the response. *)
Theorem C3_denied_create g w u og pc a :
  policy_gate g w u = (og, inr pc) ->
  get_method pc "allow" (VBool false) = inr a ->
  truthy a = false ->
  exists reason,
    get_method pc "reason" (VStr "Policy Violation") = inr reason
    /\ outcome (provision_user g w u) = inr (denial reason)
    /\ dict_keys (denial reason) = ["status"; "reason"]
    /\ adapter_calls (outputs (provision_user g w u)) = []
    /\ exists rest, events (outputs (provision_user g w u)) = CallAdvisory :: rest
                    /\ In CallPolicy rest.
Proof.
  intros Hgate Hallow Ha.
  destruct (advisory_returns g w (UserModel_dict u)) as (oa & ai & Hadv & Hoa & _).
  destruct (policy_gate_returns g w u) as (og' & pc' & Hgate' & Hog & _).
  rewrite Hgate in Hgate'. injection Hgate' as -> ->.
  assert (Hreason : exists reason, get_method pc' "reason" (VStr "Policy Violation") = inr reason).
  { destruct pc'; cbn in Hallow |- *; try discriminate; eauto. }
  destruct Hreason as (reason & Hreason). exists reason.
  rewrite (provision_user_run _ _ _ _ _ _ _ Hadv Hgate), Hallow, Ha, Hreason.
  cbn [negb]. repeat split.
  - calls. now rewrite Hoa, Hog.
  - calls. eexists. split; [reflexivity|].
    apply in_or_app. right. now left.
Qed.

Lemma C3_denied_create_witness :
  exists reason,
    get_method (VDict [("allow", VBool false); ("reason", VStr "region blocked")])
               "reason" (VStr "Policy Violation") = inr reason
    /\ outcome (provision_user (gate_only None)
                  (answering (VDict [("result", VDict [("allow", VBool false);
                                                       ("reason", VStr "region blocked")])]))
                  alice) = inr (denial reason)
    /\ dict_keys (denial reason) = ["status"; "reason"]
    /\ adapter_calls (outputs (provision_user (gate_only None)
                  (answering (VDict [("result", VDict [("allow", VBool false);
                                                       ("reason", VStr "region blocked")])]))
                  alice)) = []
    /\ exists rest,
         events (outputs (provision_user (gate_only None)
                  (answering (VDict [("result", VDict [("allow", VBool false);
                                                       ("reason", VStr "region blocked")])]))
                  alice)) = CallAdvisory :: rest
         /\ In CallPolicy rest.
Proof.
  apply (C3_denied_create (gate_only None) _ alice [Ev CallPolicy; Ev (Http OPA)] _
                          (VBool false)); reflexivity.
Defined.

(** C4 as stated (exactly one audit record per accepted request) fails for
    Create: every [logging] call writes a line of [logs/audit.log], and
    [provision_user] makes three of them on its shortest path. *)
Lemma C4_create_writes_three_records :
  fst (serve (all_mocks None) offline Create alice_body empty_server)
  = Http200 (VDict [("entra_status", VStr "success");
                    ("entra_result", VStr "User created");
                    ("aws_status", VStr "success");
                    ("ai_access", VDict [("error", VStr "Missing OpenAI API key")]);
                    ("policy_check", VDict [("allow", VBool true)]);
                    ("sailpoint_result", VStr "User pushed")])
  /\ length (audit_log (snd (serve (all_mocks None) offline Create alice_body empty_server)))
     = 3.
Proof. split; reflexivity. Qed.

(** The handlers for update and delete return only with three mock
    backends, and then write one line. *)
Lemma update_delete_returns op g w u v :
  op <> Create ->
  outcome (handler op g w u) = inr v ->
  length (records (outputs (handler op g w u))) = 1.
Proof.
  intros Hop. destruct op; [contradiction| |]; cbn [handler].
  - rewrite update_user_run.
    destruct (entra g), (aws g), (sailpoint g); cbn; intros H; now try discriminate.
  - rewrite deprovision_user_run.
    destruct (entra g), (aws g), (sailpoint g); cbn; intros H; now try discriminate.
Qed.

Ltac count_records :=
  repeat first [ progress cbn [length records] | rewrite length_app ]; lia.

Lemma provision_user_returns_three g w u v :
  outcome (provision_user g w u) = inr v ->
  3 <= length (records (outputs (provision_user g w u))).
Proof.
  destruct (advisory_returns g w (UserModel_dict u)) as (oa & ai & Hadv & _).
  destruct (policy_gate_returns g w u) as (og & pc & Hgate & _).
  rewrite (provision_user_run _ _ _ _ _ _ _ Hadv Hgate).
  destruct (get_method pc "allow" (VBool false)) as [e|a]; [discriminate|].
  destruct (negb (truthy a)).
  - destruct (get_method pc "reason" (VStr "Policy Violation")); [discriminate|].
    intros _. calls. count_records.
  - destruct (fan_out_cases g w u ai pc)
      as [(_ & e & ->) | [(_ & _ & ->) | (_ & _ & os & s & _ & _ & _ & ->)]];
      cbn [outcome snd]; try discriminate.
    intros _. calls. count_records.
Qed.

Lemma serve_rejects g w op body st :
  UserModel_validate body = None -> serve g w op body st = (Http422, st).
Proof.
  intros H. unfold serve, endpoint. rewrite H. cbn.
  destruct st; cbn. now rewrite !app_nil_r.
Qed.

Lemma email_missing_rejected body : email_missing body -> UserModel_validate body = None.
Proof.
  unfold email_missing, UserModel_validate.
  destruct body as [| | | | | |d|]; try reflexivity.
  destruct (lookup "email" d) as [[]|]; now try contradiction.
Qed.

(** C4, amended.  Every Update or Delete request that returns a result
    appends exactly one audit record; every Create request that returns a
    result (a denial or an aggregate) appends at least three (the request,
    the advisory recommendation, and the denial or the completion); a
    request rejected for missing email appends none and leaves the server
    as it was. *)
Theorem C4_audit_records g w op body st :
  (forall v, fst (serve g w op body st) = Http200 v ->
     match op with
     | Create => length (audit_log st) + 3 <= length (audit_log (snd (serve g w op body st)))
     | Update | Delete =>
         length (audit_log (snd (serve g w op body st))) = length (audit_log st) + 1
     end)
  /\ (email_missing body -> serve g w op body st = (Http422, st)).
Proof.
  split.
  - intros v. unfold serve, endpoint.
    destruct (UserModel_validate body) as [u|]; [|discriminate].
    destruct (handler op g w u) as [o [e|r]] eqn:Hh; cbn; [discriminate|].
    intros _. rewrite length_app.
    assert (Hout : outcome (handler op g w u) = inr r) by now rewrite Hh.
    destruct op.
    + apply provision_user_returns_three in Hout. cbn [handler] in Hh.
      rewrite Hh in Hout. cbn in Hout. lia.
    + apply update_delete_returns in Hout; [|discriminate].
      rewrite Hh in Hout. cbn in Hout. lia.
    + apply update_delete_returns in Hout; [|discriminate].
      rewrite Hh in Hout. cbn in Hout. lia.
  - intros H. apply serve_rejects. now apply email_missing_rejected.
Qed.

Lemma C4_audit_records_witness :
  serve (all_mocks None) offline Update (VDict [("firstName", VStr "Alice")]) empty_server
  = (Http422, empty_server)
  /\ length (audit_log (snd (serve (all_mocks None) offline Update alice_body empty_server)))
     = length (audit_log empty_server) + 1.
Proof.
  destruct (C4_audit_records (all_mocks None) offline Update
              (VDict [("firstName", VStr "Alice")]) empty_server) as [_ Hreject].
  destruct (C4_audit_records (all_mocks None) offline Update alice_body empty_server)
    as [Hone _].
  split.
  - apply Hreject. exact I.
  - apply (Hone (VDict [("entra_status", VStr "success"); ("aws_status", VStr "success");
                        ("sailpoint_status", VStr "success")])). reflexivity.
Defined.

(** ** The advisory value and the rest of the run *)

Lemma advisory_failure_value g w d msg :
  advisory_failure g w d msg ->
  exists o, get_ai_access_recommendation g w d
            = (Ev CallAdvisory :: o, inr (VDict [("error", VStr msg)])).
Proof.
  intros H. unfold get_ai_access_recommendation.
  destruct H as [Hk | Hk Ho | e Hk Ho Hc | resp e Hk Ho Hc Hm];
    rewrite Hk; cbn -[completion_content]; try rewrite Ho; cbn -[completion_content];
    try rewrite Hc; cbn -[completion_content]; try rewrite Hm; cbn; eauto.
Qed.

(** The fan-out uses the advisory value only as the [ai_access] field. *)
Lemma fan_out_advisory g w u ai ai' pc :
  outputs (fan_out g w u ai pc) = outputs (fan_out g w u ai' pc)
  /\ without_advisory (outcome (fan_out g w u ai pc))
     = without_advisory (outcome (fan_out g w u ai' pc)).
Proof.
  unfold fan_out. destruct (entra g).
  - cbn -[create_entra_user UserModel_dict].
    destruct (create_entra_user_raises w u) as (e & ->). now split.
  - destruct (aws g); [now split|].
    destruct (sailpoint g); now split.
Qed.

Lemma provision_user_advisory g w u module key model :
  without_advisory (outcome (provision_user (with_advisory g module key) (with_model w model) u))
  = without_advisory (outcome (provision_user g w u))
  /\ adapter_calls (outputs (provision_user (with_advisory g module key) (with_model w model) u))
     = adapter_calls (outputs (provision_user g w u))
  /\ policy_calls (outputs (provision_user (with_advisory g module key) (with_model w model) u))
     = policy_calls (outputs (provision_user g w u)).
Proof.
  destruct (advisory_returns g w (UserModel_dict u)) as (oa & ai & Hadv & Hoa & Hpa).
  destruct (advisory_returns (with_advisory g module key) (with_model w model) (UserModel_dict u))
    as (oa' & ai' & Hadv' & Hoa' & Hpa').
  destruct (policy_gate_returns g w u) as (og & pc & Hgate & _).
  assert (Hgate' : policy_gate (with_advisory g module key) (with_model w model) u
                   = (Ev CallPolicy :: og, inr pc)) by exact Hgate.
  rewrite (provision_user_run _ _ _ _ _ _ _ Hadv Hgate).
  rewrite (provision_user_run _ _ _ _ _ _ _ Hadv' Hgate').
  change (fan_out (with_advisory g module key) (with_model w model) u ai' pc)
    with (fan_out g w u ai' pc).
  destruct (fan_out_advisory g w u ai ai' pc) as [Ho Hr].
  destruct (get_method pc "allow" (VBool false)) as [e|a].
  { calls. now rewrite Hoa, Hoa', Hpa, Hpa'. }
  destruct (negb (truthy a)).
  - destruct (get_method pc "reason" (VStr "Policy Violation")).
    + calls. now rewrite Hoa, Hoa', Hpa, Hpa'.
    + calls. now rewrite Hoa, Hoa', Hpa, Hpa'.
  - cbn [outcome outputs fst snd]. cbn [outcome outputs fst snd] in Ho, Hr.
    rewrite Hr, <- Ho. split; [reflexivity|]. calls.
    now rewrite Hoa, Hoa', Hpa, Hpa'.
Qed.

(** The recommender of [logic/ai_recommender.py] returns in every case. *)
Lemma get_access_recommendation_returns w profile :
  exists o v, get_access_recommendation w profile = (o, inr v).
Proof.
  unfold get_access_recommendation. apply try_except_returns. intros e. cbn. eauto.
Qed.

(** C5 as stated (the failure is captured inside the advisory field of the
    result) fails for a denied Create request: the recommender has failed
    (no API key) before the policy check, and the response is the bare
    denial, which has no [ai_access] field. *)
Lemma C5_denial_has_no_advisory_field :
  advisory_failure (gate_only None) offline alice_body "Missing OpenAI API key"
  /\ outcome (provision_user (gate_only None) offline alice)
     = inr (denial (VStr "OPA policy check failed"))
  /\ getitem (denial (VStr "OPA policy check failed")) "ai_access"
     = inl (KeyError "ai_access").
Proof. repeat split. now apply missing_api_key. Qed.

(** C5, amended.  For every Create request, any failure of the Advisory
    Recommender (missing API key, missing module, transport error,
    malformed model response) is returned by the recommender as the value
    [{error: message}], never as an exception; whenever [provision_user]
    returns an aggregate, that value is its [ai_access] field, and a denial
    carries no advisory field.  The failure does not abort the workflow
    or change anything else: with any other advisory module, key and model
    answers, the outcome is the same up to the [ai_access] field, and so
    are the calls to the policy gate and to the backend adapters.  The
    recommender of [logic/ai_recommender.py] never raises either. *)
Theorem C5_advisory_failure_is_contained g w u msg :
  advisory_failure g w (UserModel_dict u) msg ->
  outcome (get_ai_access_recommendation g w (UserModel_dict u))
  = inr (VDict [("error", VStr msg)])
  /\ (forall r, outcome (provision_user g w u) = inr r ->
        (exists reason, r = denial reason)
        \/ (dict_keys r = aggregate_keys Create
            /\ getitem r "ai_access" = inr (VDict [("error", VStr msg)])))
  /\ (forall module key model,
        without_advisory
          (outcome (provision_user (with_advisory g module key) (with_model w model) u))
        = without_advisory (outcome (provision_user g w u))
        /\ adapter_calls
             (outputs (provision_user (with_advisory g module key) (with_model w model) u))
           = adapter_calls (outputs (provision_user g w u))
        /\ policy_calls
             (outputs (provision_user (with_advisory g module key) (with_model w model) u))
           = policy_calls (outputs (provision_user g w u)))
  /\ (forall profile, exists o v, get_access_recommendation w profile = (o, inr v)).
Proof.
  intros Hf. destruct (advisory_failure_value _ _ _ _ Hf) as (oa & Hadv).
  split; [now rewrite Hadv|]. split; [|split; [|apply get_access_recommendation_returns]].
  - intros r. destruct (policy_gate_returns g w u) as (og & pc & Hgate & _).
    rewrite (provision_user_run _ _ _ _ _ _ _ Hadv Hgate).
    destruct (get_method pc "allow" (VBool false)) as [e|a]; [discriminate|].
    destruct (negb (truthy a)).
    + destruct (get_method pc "reason" (VStr "Policy Violation")) as [e|reason];
        [discriminate|].
      intros [= <-]. left. now exists reason.
    + destruct (fan_out_cases g w u (VDict [("error", VStr msg)]) pc)
        as [(_ & e & ->) | [(_ & _ & ->) | (_ & _ & os & s & _ & _ & _ & ->)]];
        cbn [outcome snd]; try discriminate.
      intros [= <-]. right. split; reflexivity.
  - intros module key model. apply provision_user_advisory.
Qed.

Lemma C5_advisory_failure_is_contained_witness :
  outcome (get_ai_access_recommendation (all_mocks None) offline alice_body)
  = inr (VDict [("error", VStr "Missing OpenAI API key")])
  /\ getitem (VDict [("entra_status", VStr "success");
                     ("entra_result", VStr "User created");
                     ("aws_status", VStr "success");
                     ("ai_access", VDict [("error", VStr "Missing OpenAI API key")]);
                     ("policy_check", VDict [("allow", VBool true)]);
                     ("sailpoint_result", VStr "User pushed")]) "ai_access"
     = inr (VDict [("error", VStr "Missing OpenAI API key")]).
Proof.
  destruct (C5_advisory_failure_is_contained (all_mocks None) offline alice
              "Missing OpenAI API key") as (Hv & Hr & _).
  - now apply missing_api_key.
  - split; [exact Hv|].
    destruct (Hr _ eq_refl) as [(reason & Hd) | (_ & Hai)].
    + discriminate Hd.
    + exact Hai.
Defined.

(** C6 as stated (a malformed email is rejected before any call and any
    audit record) fails: the schema declares [email: str], and any string
    validates.  The address below has no [@]; the request is accepted, the
    advisory helper, the policy gate and the three adapters are called and
    three audit records are written. *)
Lemma C6_malformed_email_is_accepted :
  let body := VDict [("email", VStr "not-an-address")] in
  has_at_sign "not-an-address" = false
  /\ UserModel_validate body
     = Some (mkUser "not-an-address" None None None None None None None None None)
  /\ calls (snd (serve (all_mocks None) offline Create body empty_server))
     = [CallAdvisory; CallPolicy; CallAdapter Entra Create; CallAdapter AWS Create;
        CallAdapter SailPoint Create]
  /\ length (audit_log (snd (serve (all_mocks None) offline Create body empty_server))) = 3.
Proof. repeat split. Qed.

(** C6, amended.  Every request whose body has no string under [email]
    (the field is missing, null or of another type, or the body is no
    object) is rejected before the handler runs: no policy gate, advisory
    recommender or backend adapter call is made and no audit record is
    written.  The form of a string email is not checked: every string is
    accepted. *)
Theorem C6_missing_email_rejected g w op body st :
  (email_missing body ->
     serve g w op body st = (Http422, st)
     /\ endpoint op g w body = ([], Http422))
  /\ (forall s, UserModel_validate (VDict [("email", VStr s)])
                = Some (mkUser s None None None None None None None None None)).
Proof.
  split; [|reflexivity].
  intros H. apply email_missing_rejected in H. split.
  - now apply serve_rejects.
  - unfold endpoint. now rewrite H.
Qed.

Lemma C6_missing_email_rejected_witness :
  serve (all_mocks None) offline Create (VDict [("firstName", VStr "Alice")]) empty_server
  = (Http422, empty_server)
  /\ endpoint Create (all_mocks None) offline (VDict [("firstName", VStr "Alice")])
     = ([], Http422).
Proof.
  apply (C6_missing_email_rejected (all_mocks None) offline Create
           (VDict [("firstName", VStr "Alice")]) empty_server).
  exact I.
Defined.

(** C7 (update and delete call every backend).  The claim asks that each
    Update and Delete request skips the Policy Gate and the Advisory
    Recommender and invokes every backend adapter's operation, the
    response holding the three outcomes.  The handlers do skip the gate
    and the recommender, for every binding.  But the adapters of the
    sources have no update or delete operation: [provision/entra.py],
    [provision/aws.py] and [provision/sailpoint.py] define none of the
    six functions that [update_user] and [deprovision_user] call (and
    that [patch_mock_returns] lists).  With [provision/entra.py] bound to
    [entra] the first lookup raises [AttributeError]: no adapter operation
    is invoked and there is no response; with [provision/sailpoint.py]
    bound to [sailpoint] the Entra and AWS operations have run and their
    outcomes are lost.  Only with three mocks are the three operations
    invoked and their outcomes returned. *)
Theorem C7_source_adapters_lack_update_and_delete g w u :
  (policy_calls (outputs (update_user g w u)) = []
   /\ advisory_calls (outputs (update_user g w u)) = []
   /\ policy_calls (outputs (deprovision_user g w u)) = []
   /\ advisory_calls (outputs (deprovision_user g w u)) = [])
  /\ update_user entra_bound w u
     = ([], inl (no_attribute provision_entra "update_entra_user"))
  /\ deprovision_user entra_bound w u
     = ([], inl (no_attribute provision_entra "delete_entra_user"))
  /\ update_user sailpoint_bound w u
     = ([Ev (CallAdapter Entra Update); Ev (CallAdapter AWS Update)],
        inl (no_attribute provision_sailpoint "update_user_attributes"))
  /\ deprovision_user sailpoint_bound w u
     = ([Ev (CallAdapter Entra Delete); Ev (CallAdapter AWS Delete)],
        inl (no_attribute provision_sailpoint "delete_user"))
  /\ (forall b op, op <> Create ->
        has_attr (backend_module b) (operation_name b op) = false)
  /\ adapter_calls (outputs (update_user (all_mocks None) w u))
     = [CallAdapter Entra Update; CallAdapter AWS Update; CallAdapter SailPoint Update]
  /\ outcome (deprovision_user (all_mocks None) w u)
     = inr (VDict [("entra_status", VStr "success"); ("aws_status", VStr "success");
                   ("sailpoint_status", VStr "success")]).
Proof.
  split; [|repeat split].
  - rewrite update_user_run, deprovision_user_run.
    now destruct (entra g), (aws g), (sailpoint g).
  - intros b op Hop. now destruct b, op.
Qed.

Lemma C7_source_adapters_lack_update_and_delete_witness :
  has_attr (backend_module AWS) (operation_name AWS Delete) = false.
Proof.
  destruct (C7_source_adapters_lack_update_and_delete (all_mocks None) offline alice)
    as (_ & _ & _ & _ & _ & H & _).
  apply H. discriminate.
Defined.

(** C8 (order of the outcomes).  Whenever a handler returns, the keys of
    the result are, in order, those of the dictionary literal of that
    handler (or, for a denied Create, [status] and [reason]): the order
    depends on the operation alone, not on the bindings, the answers of
    the services or the profile, so two identical requests get their
    backend outcomes in the same order. *)
Theorem C8_outcome_order_is_fixed op g w u r :
  outcome (handler op g w u) = inr r ->
  dict_keys r = aggregate_keys op
  \/ (op = Create /\ dict_keys r = ["status"; "reason"]).
Proof.
  destruct op; cbn [handler].
  - destruct (advisory_returns g w (UserModel_dict u)) as (oa & ai & Hadv & _).
    destruct (policy_gate_returns g w u) as (og & pc & Hgate & _).
    rewrite (provision_user_run _ _ _ _ _ _ _ Hadv Hgate).
    destruct (get_method pc "allow" (VBool false)) as [e|a]; [discriminate|].
    destruct (negb (truthy a)).
    + destruct (get_method pc "reason" (VStr "Policy Violation")); [discriminate|].
      intros [= <-]. now right.
    + destruct (fan_out_cases g w u ai pc)
        as [(_ & e & ->) | [(_ & _ & ->) | (_ & _ & os & s & _ & _ & _ & ->)]];
        cbn [outcome snd]; try discriminate.
      intros [= <-]. now left.
  - rewrite update_user_run.
    destruct (entra g), (aws g), (sailpoint g); cbn; intros H; try discriminate.
    injection H as <-. now left.
  - rewrite deprovision_user_run.
    destruct (entra g), (aws g), (sailpoint g); cbn; intros H; try discriminate.
    injection H as <-. now left.
Qed.

Lemma C8_outcome_order_is_fixed_witness :
  dict_keys (VDict [("entra_status", VStr "success");
                    ("entra_result", VStr "User created");
                    ("aws_status", VStr "success");
                    ("ai_access", VDict [("error", VStr "Missing OpenAI API key")]);
                    ("policy_check", VDict [("allow", VBool true)]);
                    ("sailpoint_result", VStr "User pushed")])
  = aggregate_keys Create
  \/ (Create = Create /\
      dict_keys (VDict [("entra_status", VStr "success");
                        ("entra_result", VStr "User created");
                        ("aws_status", VStr "success");
                        ("ai_access", VDict [("error", VStr "Missing OpenAI API key")]);
                        ("policy_check", VDict [("allow", VBool true)]);
                        ("sailpoint_result", VStr "User pushed")])
      = ["status"; "reason"]).
Proof.
  apply (C8_outcome_order_is_fixed Create (all_mocks None) offline alice). reflexivity.
Defined.

(** C9 (the Entra adapter on a schema-valid profile).  [user.dict()] has
    the ten fields of [UserModel] and none named [name], [nickname] or
    [temp_password]; so [create_entra_user] never returns on it, whatever
    the services answer: once the token has been fetched, building the
    payload raises [KeyError('name')] before any request to the users
    endpoint is sent (and when the token cannot be fetched, that exception
    leaves the function instead). *)
Theorem C9_create_entra_user_never_returns w u :
  dict_keys (UserModel_dict u)
  = ["email"; "firstName"; "lastName"; "jobTitle"; "department"; "location";
     "employeeId"; "managerId"; "costcenter"; "region"]
  /\ getitem (UserModel_dict u) "name" = inl (KeyError "name")
  /\ getitem (UserModel_dict u) "nickname" = inl (KeyError "nickname")
  /\ getitem (UserModel_dict u) "temp_password" = inl (KeyError "temp_password")
  /\ (forall v, outcome (create_entra_user w (UserModel_dict u)) <> inr v)
  /\ events (outputs (create_entra_user w (UserModel_dict u))) = [Http GraphToken]
  /\ (forall token, outcome (get_graph_token w) = inr token ->
        outcome (create_entra_user w (UserModel_dict u)) = inl (KeyError "name")).
Proof.
  repeat split.
  - intros v. rewrite create_entra_user_run.
    now destruct (outcome (get_graph_token w)).
  - rewrite create_entra_user_run. now destruct (outcome (get_graph_token w)).
  - intros token Ht. rewrite create_entra_user_run. now rewrite Ht.
Qed.

Lemma C9_create_entra_user_never_returns_witness :
  outcome (create_entra_user (answering (VDict [])) alice_body) = inl (KeyError "name").
Proof.
  destruct (C9_create_entra_user_never_returns (answering (VDict [])) alice)
    as (_ & _ & _ & _ & _ & _ & H).
  apply (H (VStr "eyJ0")). reflexivity.
Defined.

(** A [result] that is not a mapping is returned as it is by
    [enforce_policy]; the [get] of the handler then raises. *)
Lemma non_mapping_result_raises :
  let w := answering (VDict [("result", VBool true)]) in
  outcome (enforce_policy w alice_body) = inr (VBool true)
  /\ outcome (provision_user (gate_only None) w alice)
     = inl (AttributeError "'bool' object has no attribute 'get'").
Proof. split; reflexivity. Qed.

(** C10 as stated (only an explicit [allow: true] lets provisioning
    proceed) fails: the handler tests the truthiness of the value.  Here
    the policy service answers [{result: {allow: "no"}}]; the non-empty
    string is truthy and the three adapters are called. *)
Lemma C10_truthy_allow_proceeds :
  let w := answering (VDict [("result", VDict [("allow", VStr "no")])]) in
  outcome (enforce_policy w alice_body) = inr (VDict [("allow", VStr "no")])
  /\ adapter_calls (outputs (provision_user (gate_only None) w alice))
     = [CallAdapter Entra Create; CallAdapter AWS Create; CallAdapter SailPoint Create]
  /\ outcome (provision_user (gate_only None) w alice)
     = inr (VDict [("entra_status", VStr "success");
                   ("entra_result", VStr "User created");
                   ("aws_status", VStr "success");
                   ("ai_access", VDict [("error", VStr "Missing OpenAI API key")]);
                   ("policy_check", VDict [("allow", VStr "no")]);
                   ("sailpoint_result", VStr "User pushed")]).
Proof. repeat split. Qed.

Lemma fan_out_calls_entra g w u ai pc :
  In (CallAdapter Entra Create) (adapter_calls (outputs (fan_out g w u ai pc))).
Proof.
  destruct (fan_out_cases g w u ai pc)
    as [(_ & e & ->) | [(_ & _ & ->) | (_ & _ & os & s & _ & _ & _ & ->)]];
    calls; now left.
Qed.

(** C10, amended.  [enforce_policy] never raises.  When the policy
    service answers a JSON object without a [result] key, it returns the
    empty mapping and the handler denies with the reason "Policy
    Violation".  When [result] is a mapping, the handler denies exactly
    when its [allow] is absent or falsy, and proceeds to the backend
    adapters for every truthy [allow] (true, but also a non-zero number or
    a non-empty string or container). *)
Theorem C10_policy_result_decides g w u :
  (forall d, exists o v, enforce_policy w d = (o, inr v))
  /\ (opa_enforcer g = RealModule ->
      forall body, opa_response w (VDict [("input", UserModel_dict u)]) = inr (VDict body) ->
        (lookup "result" body = None ->
           outcome (enforce_policy w (UserModel_dict u)) = inr (VDict [])
           /\ outcome (provision_user g w u) = inr (denial (VStr "Policy Violation"))
           /\ adapter_calls (outputs (provision_user g w u)) = [])
        /\ (forall d, lookup "result" body = Some (VDict d) ->
              outcome (enforce_policy w (UserModel_dict u)) = inr (VDict d)
              /\ match lookup "allow" d with
                 | Some allow =>
                     if truthy allow
                     then In (CallAdapter Entra Create)
                             (adapter_calls (outputs (provision_user g w u)))
                     else adapter_calls (outputs (provision_user g w u)) = []
                          /\ exists reason,
                               outcome (provision_user g w u) = inr (denial reason)
                 | None =>
                     adapter_calls (outputs (provision_user g w u)) = []
                     /\ exists reason, outcome (provision_user g w u) = inr (denial reason)
                 end)).
Proof.
  split.
  { intros d. unfold enforce_policy. apply try_except_returns. intros e. cbn. eauto. }
  intros Hg body Hbody.
  destruct (advisory_returns g w (UserModel_dict u)) as (oa & ai & Hadv & Hoa & _).
  assert (Hgate : forall v, get_method (VDict body) "result" (VDict []) = inr v ->
            enforce_policy w (UserModel_dict u) = ([Ev (Http OPA)], inr v)
            /\ policy_gate g w u = ([Ev CallPolicy; Ev (Http OPA)], inr v)).
  { intros v Hv.
    assert (He : enforce_policy w (UserModel_dict u) = ([Ev (Http OPA)], inr v)).
    { unfold enforce_policy. rewrite Hbody. cbn -[get_method]. now rewrite Hv. }
    split; [exact He|].
    unfold policy_gate, call_attr. rewrite Hg. cbn -[enforce_policy UserModel_dict].
    now rewrite He. }
  split.
  - intros Hnone.
    destruct (Hgate (VDict [])) as [He Hp]; [cbn; now rewrite Hnone|].
    rewrite He, (provision_user_run _ _ _ _ _ _ _ Hadv Hp). cbn [get_method lookup truthy negb].
    repeat split. calls. now rewrite Hoa.
  - intros d Hd.
    destruct (Hgate (VDict d)) as [He Hp]; [cbn; now rewrite Hd|].
    rewrite He, (provision_user_run _ _ _ _ _ _ _ Hadv Hp). split; [reflexivity|].
    cbn [get_method].
    destruct (lookup "allow" d) as [allow|].
    + destruct (truthy allow); cbn [negb].
      * calls. rewrite Hoa. cbn [app]. apply fan_out_calls_entra.
      * split; [calls; now rewrite Hoa|]. eexists. reflexivity.
    + cbn [truthy negb]. split; [calls; now rewrite Hoa|]. eexists. reflexivity.
Qed.

Lemma C10_policy_result_decides_witness :
  outcome (provision_user (gate_only None) (answering (VDict [])) alice)
  = inr (denial (VStr "Policy Violation"))
  /\ In (CallAdapter Entra Create)
        (adapter_calls
           (outputs (provision_user (gate_only None)
                       (answering (VDict [("result", VDict [("allow", VBool true)])]))
                       alice))).
Proof.
  split.
  - destruct (C10_policy_result_decides (gate_only None) (answering (VDict [])) alice)
      as [_ H].
    destruct (H eq_refl [] eq_refl) as [Hnone _].
    apply Hnone. reflexivity.
  - destruct (C10_policy_result_decides (gate_only None)
                (answering (VDict [("result", VDict [("allow", VBool true)])])) alice)
      as [_ H].
    destruct (H eq_refl _ eq_refl) as [_ Hsome].
    destruct (Hsome [("allow", VBool true)] eq_refl) as [_ Hallow].
    exact Hallow.
Defined.

(** * Further properties of the sources *)

(** ** Loading [main.py] and the server it leaves *)

(** Loading [main.py] completes exactly when none of the three backend
    modules could be imported, and then binds three mocks; when one was
    imported, [patch_mock_returns] raises [AttributeError] on the first
    function that module lacks. *)
Theorem load_main_outcome importable oa key :
  load_main importable oa key
  = if importable provision_entra
    then inl (no_attribute provision_entra "delete_entra_user")
    else if importable provision_aws
    then inl (no_attribute provision_aws "create_user")
    else if importable provision_sailpoint
    then inl (no_attribute provision_sailpoint "delete_user")
    else inr {| entra := MockModule; aws := MockModule; sailpoint := MockModule;
                opa_enforcer := safe_import (importable logic_opa_enforcer);
                openai := oa; OPENAI_API_KEY := key |}.
Proof.
  unfold load_main, patch_mock_returns.
  now destruct (importable provision_entra), (importable provision_aws),
    (importable provision_sailpoint), (importable logic_opa_enforcer).
Qed.

Lemma backend_requests_app o1 o2 :
  backend_requests (o1 ++ o2) = backend_requests o1 ++ backend_requests o2.
Proof. unfold backend_requests. now rewrite events_app, filter_app. Qed.

Lemma advisory_backend_requests g w d :
  backend_requests (outputs (get_ai_access_recommendation g w d)) = [].
Proof.
  destruct (advisory_cases g w d)
    as [(msg & Hf & o & H & _) | (resp & c & _ & _ & ->)]; [|reflexivity].
  revert H. unfold get_ai_access_recommendation.
  destruct (key_present (OPENAI_API_KEY g)); cbn -[completion_content];
    [|now intros _].
  destruct (openai g); cbn -[completion_content]; [|now intros _].
  destruct (chat_completion w (advisory_prompt d)) as [e|resp];
    cbn -[completion_content]; [now intros _|].
  now destruct (completion_content resp).
Qed.

Lemma policy_gate_backend_requests g w u :
  backend_requests (outputs (policy_gate g w u)) = [].
Proof.
  unfold policy_gate, call_attr. destruct (opa_enforcer g); [|reflexivity].
  cbn -[enforce_policy UserModel_dict].
  now destruct (enforce_policy_cases w (UserModel_dict u))
    as [(body & v & _ & _ & ->) | (e & _ & ->)].
Qed.

(** With three mock backends the fan-out is the same for every world. *)
Lemma fan_out_mocks g w u ai pc :
  entra g = MockModule -> aws g = MockModule -> sailpoint g = MockModule ->
  fan_out g w u ai pc
  = ([Ev (CallAdapter Entra Create); Ev (CallAdapter AWS Create);
      Ev (CallAdapter SailPoint Create);
      completed (VStr "success") (VStr "success") (VStr "User pushed")],
     inr (VDict [("entra_status", VStr "success");
                 ("entra_result", VStr "User created");
                 ("aws_status", VStr "success");
                 ("ai_access", ai);
                 ("policy_check", pc);
                 ("sailpoint_result", VStr "User pushed")])).
Proof. intros He Ha Hs. unfold fan_out. now rewrite He, Ha, Hs. Qed.

Lemma provision_user_mocks_requests g w u :
  entra g = MockModule -> aws g = MockModule -> sailpoint g = MockModule ->
  backend_requests (outputs (provision_user g w u)) = [].
Proof.
  intros He Ha Hs.
  pose proof (advisory_backend_requests g w (UserModel_dict u)) as Hadv.
  pose proof (policy_gate_backend_requests g w u) as Hpol.
  destruct (advisory_returns g w (UserModel_dict u)) as (oa & ai & Ea & _).
  destruct (policy_gate_returns g w u) as (og & pc & Eg & _).
  rewrite Ea in Hadv. rewrite Eg in Hpol.
  rewrite (provision_user_run _ _ _ _ _ _ _ Ea Eg).
  change (backend_requests (Ev CallAdvisory :: oa) = []) in Hadv.
  change (backend_requests (Ev CallPolicy :: og) = []) in Hpol.
  assert (Hpre : forall tail, backend_requests tail = [] ->
            backend_requests (received u :: (Ev CallAdvisory :: oa)
                                ++ recommended ai :: (Ev CallPolicy :: og) ++ tail) = []).
  { intros tail Ht.
    change (received u :: (Ev CallAdvisory :: oa) ++ recommended ai :: (Ev CallPolicy :: og) ++ tail)
      with ([received u] ++ (Ev CallAdvisory :: oa) ++ [recommended ai]
              ++ (Ev CallPolicy :: og) ++ tail).
    rewrite !backend_requests_app, Hadv, Hpol, Ht. reflexivity. }
  destruct (get_method pc "allow" (VBool false)) as [e|a].
  { cbn [outputs fst]. rewrite <- (app_nil_r (Ev CallPolicy :: og)). now apply Hpre. }
  destruct (negb (truthy a)).
  - destruct (get_method pc "reason" (VStr "Policy Violation")); cbn [outputs fst].
    + rewrite <- (app_nil_r (Ev CallPolicy :: og)). now apply Hpre.
    + now apply Hpre.
  - cbn [outputs fst]. apply Hpre. now rewrite (fan_out_mocks _ _ _ _ _ He Ha Hs).
Qed.

(** A server that finished loading never sends a request to Entra, AWS or
    SailPoint, whatever the operation, the body and the network; its update
    and delete endpoints answer every valid body with three "success"
    statuses and write one audit record. *)
Theorem loaded_server_contacts_no_backend importable oa key g w op body :
  load_main importable oa key = inr g ->
  backend_requests (fst (endpoint op g w body)) = []
  /\ (op <> Create ->
      forall u, UserModel_validate body = Some u ->
        snd (endpoint op g w body)
        = Http200 (VDict [("entra_status", VStr "success");
                          ("aws_status", VStr "success");
                          ("sailpoint_status", VStr "success")])
        /\ length (records (fst (endpoint op g w body))) = 1).
Proof.
  intros Hload. destruct (load_main_backends _ _ _ _ Hload) as (He & Ha & Hs).
  unfold endpoint. split.
  - destruct (UserModel_validate body) as [u|]; [|reflexivity].
    destruct op; cbn [handler].
    + pose proof (provision_user_mocks_requests g w u He Ha Hs) as H.
      now destruct (provision_user g w u).
    + rewrite update_user_run, He, Ha, Hs. reflexivity.
    + rewrite deprovision_user_run, He, Ha, Hs. reflexivity.
  - intros Hop u ->. destruct op; [contradiction| |]; cbn [handler].
    + rewrite update_user_run, He, Ha, Hs. now split.
    + rewrite deprovision_user_run, He, Ha, Hs. now split.
Qed.

Lemma loaded_server_contacts_no_backend_witness :
  backend_requests (fst (endpoint Delete (all_mocks None) offline alice_body)) = []
  /\ snd (endpoint Delete (all_mocks None) offline alice_body)
     = Http200 (VDict [("entra_status", VStr "success");
                       ("aws_status", VStr "success");
                       ("sailpoint_status", VStr "success")]).
Proof.
  destruct (loaded_server_contacts_no_backend (fun _ => false) true None
              (all_mocks None) offline Delete alice_body eq_refl) as [Hreq Hok].
  split; [exact Hreq|].
  destruct (Hok ltac:(discriminate) alice eq_refl) as [Hresp _]. exact Hresp.
Defined.

(** In a loaded server a valid Create request is answered with a result,
    a denial or an aggregate whose three backend outcomes are the mocks'
    constants, unless the value of the policy check has no [get], which is
    the only exception that reaches the caller. *)
Theorem loaded_server_create importable oa key g w u :
  load_main importable oa key = inr g ->
  (exists reason, outcome (provision_user g w u) = inr (denial reason))
  \/ (exists ai pc,
        outcome (provision_user g w u)
        = inr (VDict [("entra_status", VStr "success");
                      ("entra_result", VStr "User created");
                      ("aws_status", VStr "success");
                      ("ai_access", ai);
                      ("policy_check", pc);
                      ("sailpoint_result", VStr "User pushed")]))
  \/ (exists pc e,
        outcome (policy_gate g w u) = inr pc
        /\ get_method pc "allow" (VBool false) = inl e
        /\ outcome (provision_user g w u) = inl e).
Proof.
  intros Hload. destruct (load_main_backends _ _ _ _ Hload) as (He & Ha & Hs).
  destruct (advisory_returns g w (UserModel_dict u)) as (oa' & ai & Ea & _).
  destruct (policy_gate_returns g w u) as (og & pc & Eg & _).
  rewrite (provision_user_run _ _ _ _ _ _ _ Ea Eg), Eg.
  destruct (get_method pc "allow" (VBool false)) as [e|a] eqn:Hallow.
  { right. right. now exists pc, e. }
  destruct (negb (truthy a)).
  - assert (Hr : exists reason, get_method pc "reason" (VStr "Policy Violation") = inr reason).
    { destruct pc; cbn in Hallow |- *; try discriminate; eauto. }
    destruct Hr as (reason & ->). left. now exists reason.
  - right. left. rewrite (fan_out_mocks _ _ _ _ _ He Ha Hs). now exists ai, pc.
Qed.

Lemma loaded_server_create_witness :
  (exists reason,
      outcome (provision_user (gate_only None) offline alice) = inr (denial reason))
  \/ (exists ai pc,
        outcome (provision_user (gate_only None) offline alice)
        = inr (VDict [("entra_status", VStr "success");
                      ("entra_result", VStr "User created");
                      ("aws_status", VStr "success");
                      ("ai_access", ai);
                      ("policy_check", pc);
                      ("sailpoint_result", VStr "User pushed")]))
  \/ (exists pc e,
        outcome (policy_gate (gate_only None) offline alice) = inr pc
        /\ get_method pc "allow" (VBool false) = inl e
        /\ outcome (provision_user (gate_only None) offline alice) = inl e).
Proof.
  apply (loaded_server_create
           (fun m => match m with logic_opa_enforcer => true | _ => false end)
           true None (gate_only None) offline alice).
  reflexivity.
Defined.

(** When no module can be imported, the policy check is a mock that
    allows: every valid Create request is approved and reported as
    provisioned, and no request is sent to the policy service or to a
    backend. *)
Theorem unimportable_modules_approve_every_request oa key w u :
  let g := with_advisory (all_mocks None) oa key in
  load_main (fun _ => false) oa key = inr g
  /\ (exists ai,
        outcome (provision_user g w u)
        = inr (VDict [("entra_status", VStr "success");
                      ("entra_result", VStr "User created");
                      ("aws_status", VStr "success");
                      ("ai_access", ai);
                      ("policy_check", VDict [("allow", VBool true)]);
                      ("sailpoint_result", VStr "User pushed")]))
  /\ policy_calls (outputs (provision_user g w u)) = [CallPolicy]
  /\ backend_requests (outputs (provision_user g w u)) = [].
Proof.
  intros g. split; [reflexivity|].
  destruct (advisory_returns g w (UserModel_dict u)) as (oa' & ai & Ea & _ & Hp).
  assert (Eg : policy_gate g w u = ([Ev CallPolicy], inr (VDict [("allow", VBool true)])))
    by reflexivity.
  rewrite (provision_user_run _ _ _ _ _ _ _ Ea Eg).
  cbn [get_method lookup String.eqb Ascii.eqb Bool.eqb truthy negb].
  rewrite (fan_out_mocks g w u ai _ eq_refl eq_refl eq_refl).
  split; [now exists ai|]. split.
  - calls. now rewrite Hp.
  - pose proof (advisory_backend_requests g w (UserModel_dict u)) as Hb.
    rewrite Ea in Hb. cbn [outputs fst] in Hb |- *.
    change (backend_requests ([received u] ++ (Ev CallAdvisory :: oa') ++
                              [recommended ai; Ev CallPolicy; Ev (CallAdapter Entra Create);
                               Ev (CallAdapter AWS Create); Ev (CallAdapter SailPoint Create);
                               completed (VStr "success") (VStr "success") (VStr "User pushed")])
            = []).
    rewrite !backend_requests_app, Hb. reflexivity.
Qed.

(** Update and delete with a backend bound to its source file: the lookup
    of the function raises [AttributeError], and since the handler logs
    only after its three calls, the failed request leaves no audit
    record. *)
Theorem update_delete_fail_unaudited op g w u :
  op <> Create ->
  (exists b, binding g b = RealModule) ->
  (exists msg, outcome (handler op g w u) = inl (AttributeError msg))
  /\ records (outputs (handler op g w u)) = [].
Proof.
  intros Hop (b & Hb). destruct op; [contradiction| |]; cbn [handler].
  - rewrite update_user_run.
    destruct b; cbn in Hb; destruct (entra g), (aws g), (sailpoint g);
      try discriminate; split; try reflexivity; eexists; reflexivity.
  - rewrite deprovision_user_run.
    destruct b; cbn in Hb; destruct (entra g), (aws g), (sailpoint g);
      try discriminate; split; try reflexivity; eexists; reflexivity.
Qed.

Lemma update_delete_fail_unaudited_witness :
  (exists msg, outcome (handler Update sailpoint_bound offline alice)
               = inl (AttributeError msg))
  /\ records (outputs (handler Update sailpoint_bound offline alice)) = [].
Proof.
  apply (update_delete_fail_unaudited Update sailpoint_bound offline alice).
  - discriminate.
  - now exists SailPoint.
Defined.

(** ** The adapters on arbitrary profiles *)

Lemma get_graph_token_run w :
  get_graph_token w = ([Ev (Http GraphToken)], outcome (get_graph_token w)).
Proof.
  unfold get_graph_token. destruct (graph_token_response w) as [e|r]; cbn; [reflexivity|].
  now destruct (getitem r "access_token").
Qed.

(** [create_entra_user] sends its request to the users endpoint exactly
    when the token was obtained and the profile has the four keys [name],
    [nickname], [email] and [temp_password]: otherwise the exception of
    the token step, or the [KeyError] of the first missing key, leaves the
    function and nothing is sent to the users endpoint.  When the request
    is sent, its answer is returned as [(status_code, json)] whatever the
    status is. *)
Theorem create_entra_user_requires_keys w d :
  match outcome (get_graph_token w) with
  | inl e => create_entra_user w (VDict d) = ([Ev (Http GraphToken)], inl e)
  | inr token =>
      match first_missing entra_keys d with
      | Some k => create_entra_user w (VDict d) = ([Ev (Http GraphToken)], inl (KeyError k))
      | None =>
          exists name nickname mail temp_password,
            lookup "name" d = Some name /\ lookup "nickname" d = Some nickname
            /\ lookup "email" d = Some mail /\ lookup "temp_password" d = Some temp_password
            /\ create_entra_user w (VDict d)
               = ([Ev (Http GraphToken); Ev (Http GraphUsers)],
                  match graph_users_response w token
                          (entra_payload name nickname mail temp_password) with
                  | inl e => inl e
                  | inr (status, json) => inr (VTuple [status; json])
                  end)
      end
  end.
Proof.
  unfold create_entra_user. rewrite get_graph_token_run.
  destruct (outcome (get_graph_token w)) as [e|token]; [reflexivity|].
  unfold entra_keys, first_missing, getitem.
  destruct (lookup "name" d) as [name|]; [|reflexivity].
  destruct (lookup "nickname" d) as [nickname|]; [|reflexivity].
  destruct (lookup "email" d) as [mail|]; [|reflexivity].
  destruct (lookup "temp_password" d) as [pw|]; [|reflexivity].
  exists name, nickname, mail, pw. repeat split.
  cbn. unfold entra_payload.
  now destruct (graph_users_response w token _) as [e|[s j]].
Qed.

(** [push_to_sailpoint] never raises: it returns the answer of the
    service, or, for any exception of its body, the pair
    [(500, {error: str(e)})] after one ERROR line in the log.  On a
    profile that validated against [UserModel] it is always the second
    case, with the [KeyError] of [name], and no request is sent. *)
Theorem push_to_sailpoint_never_raises w user :
  ((exists status json,
       push_to_sailpoint w user = ([Ev (Http SailPointAPI)], inr (VTuple [status; json])))
   \/ (exists o e,
         push_to_sailpoint w user
         = (o ++ [Log (mkLog ERROR "SailPoint API error: {}" [VStr (exn_str e)])],
            inr (VTuple [VInt 500; VDict [("error", VStr (exn_str e))]]))
         /\ records o = []))
  /\ (forall u,
        push_to_sailpoint w (UserModel_dict u)
        = ([Log (mkLog ERROR "SailPoint API error: {}" [VStr "'name'"])],
           inr (VTuple [VInt 500; VDict [("error", VStr "'name'")]]))).
Proof.
  split; [|reflexivity].
  unfold push_to_sailpoint.
  destruct (getitem user "name") as [e|name]; [right; now exists [], e|].
  destruct (getitem user "email") as [e|mail]; [right; now exists [], e|].
  cbn -[get_method].
  destruct (get_method user "employee_id" mail) as [e|ext]; [right; now exists [], e|].
  destruct (get_method user "title" VNone) as [e|t]; [right; now exists [], e|].
  destruct (get_method user "department" VNone) as [e|dp]; [right; now exists [], e|].
  destruct (get_method user "location" VNone) as [e|lo]; [right; now exists [], e|].
  destruct (get_method user "costcenter" VNone) as [e|cc]; [right; now exists [], e|].
  cbn.
  destruct (sailpoint_response w _) as [e|[s j]]; cbn.
  - right. now exists [Ev (Http SailPointAPI)], e.
  - left. now exists s, j.
Qed.

(** On a profile with [name] and [email], [push_to_sailpoint] sends one
    request whose [externalId] is the profile's [employee_id], or its
    [email] when that key is absent, and whose four attributes are [None]
    where the profile has no [title], [department], [location] or
    [costcenter]. *)
Theorem push_to_sailpoint_payload w d name mail :
  lookup "name" d = Some name ->
  lookup "email" d = Some mail ->
  let field k := match lookup k d with Some v => v | None => VNone end in
  let payload :=
    VDict [("name", name); ("email", mail); ("displayName", name);
           ("externalId", match lookup "employee_id" d with Some i => i | None => mail end);
           ("attributes",
            VDict [("jobTitle", field "title"); ("department", field "department");
                   ("location", field "location"); ("costcenter", field "costcenter")])] in
  events (outputs (push_to_sailpoint w (VDict d))) = [Http SailPointAPI]
  /\ outcome (push_to_sailpoint w (VDict d))
     = match sailpoint_response w payload with
       | inl e => inr (VTuple [VInt 500; VDict [("error", VStr (exn_str e))]])
       | inr (status, json) => inr (VTuple [status; json])
       end.
Proof.
  intros Hn He field payload. unfold push_to_sailpoint, getitem, get_method.
  rewrite Hn, He. subst field payload. cbn.
  destruct (sailpoint_response w _) as [e|[s j]]; split; reflexivity.
Qed.

Lemma push_to_sailpoint_payload_witness :
  events (outputs (push_to_sailpoint offline
                     (VDict [("name", VStr "Alice Ng"); ("email", VStr "alice@example.com")])))
  = [Http SailPointAPI].
Proof.
  apply (push_to_sailpoint_payload offline
           [("name", VStr "Alice Ng"); ("email", VStr "alice@example.com")]
           (VStr "Alice Ng") (VStr "alice@example.com")); reflexivity.
Defined.

(** ** The policy value and the advisory helper *)

(** When the policy service answers a [result] that is no mapping (a
    boolean, a number, a string, a list or null), [enforce_policy] returns
    it as it is and the [get] of [provision_user] raises
    [AttributeError]: the request is neither denied nor provisioned, no
    backend adapter is called and no denial is logged. *)
Theorem non_mapping_policy_result_raises g w u body v :
  opa_enforcer g = RealModule ->
  opa_response w (VDict [("input", UserModel_dict u)]) = inr (VDict body) ->
  lookup "result" body = Some v ->
  get_method v "allow" (VBool false)
  = inl (AttributeError ("'" ++ type_name v ++ "' object has no attribute 'get'")%string) ->
  outcome (enforce_policy w (UserModel_dict u)) = inr v
  /\ outcome (provision_user g w u)
     = inl (AttributeError ("'" ++ type_name v ++ "' object has no attribute 'get'")%string)
  /\ adapter_calls (outputs (provision_user g w u)) = []
  /\ Forall (fun r => levelname r <> WARNING) (records (outputs (provision_user g w u))).
Proof.
  intros Hg Hbody Hres Hget.
  assert (He : enforce_policy w (UserModel_dict u) = ([Ev (Http OPA)], inr v)).
  { unfold enforce_policy. rewrite Hbody. cbn. now rewrite Hres. }
  assert (Hp : policy_gate g w u = ([Ev CallPolicy; Ev (Http OPA)], inr v)).
  { unfold policy_gate, call_attr. rewrite Hg. cbn -[enforce_policy UserModel_dict].
    now rewrite He. }
  split; [now rewrite He|].
  destruct (advisory_cases g w (UserModel_dict u))
    as [(msg & Hf & oa & Ea & Hoa & _) | (resp & c & _ & _ & Ea)];
    rewrite (provision_user_run _ _ _ _ _ _ _ Ea Hp), Hget.
  - split; [reflexivity|]. split; [calls; now rewrite Hoa|].
    calls.
    assert (Hrec : Forall (fun r => levelname r <> WARNING) (records oa)).
    { revert Ea. unfold get_ai_access_recommendation.
      destruct (key_present (OPENAI_API_KEY g)); cbn -[completion_content];
        [|intros [= <-]; constructor].
      destruct (openai g); cbn -[completion_content]; [|intros [= <-]; constructor].
      destruct (chat_completion w _) as [e|r]; cbn -[completion_content].
      { intros [= <- _]. repeat constructor. discriminate. }
      destruct (completion_content r); cbn; intros [= <- _]; repeat constructor.
      discriminate. }
    constructor; [discriminate|]. apply Forall_app. split; [exact Hrec|].
    repeat constructor. discriminate.
  - split; [reflexivity|]. split; [reflexivity|]. repeat constructor; discriminate.
Qed.

Lemma non_mapping_policy_result_raises_witness :
  outcome (provision_user (gate_only None)
             (answering (VDict [("result", VList [VStr "allow"])])) alice)
  = inl (AttributeError "'list' object has no attribute 'get'").
Proof.
  destruct (non_mapping_policy_result_raises (gate_only None)
              (answering (VDict [("result", VList [VStr "allow"])])) alice
              [("result", VList [VStr "allow"])] (VList [VStr "allow"])
              eq_refl eq_refl eq_refl eq_refl) as (_ & H & _).
  exact H.
Defined.

(** The advisory helper queries the model only when an API key is set
    (an empty key counts as none) and the [openai] module was imported,
    and then exactly once; it writes a log line only when that query
    failed, the ERROR line with the message it returns. *)
Theorem advisory_queries_only_when_configured g w d :
  events (outputs (get_ai_access_recommendation g w d))
  = (if key_present (OPENAI_API_KEY g) && openai g
     then [CallAdvisory; Http OpenAI] else [CallAdvisory])
  /\ key_present (Some "") = false
  /\ (records (outputs (get_ai_access_recommendation g w d)) = []
      \/ exists msg,
           records (outputs (get_ai_access_recommendation g w d))
           = [mkLog ERROR "AI error: {}" [VStr msg]]
           /\ outcome (get_ai_access_recommendation g w d)
              = inr (VDict [("error", VStr msg)])
           /\ key_present (OPENAI_API_KEY g) && openai g = true).
Proof.
  unfold get_ai_access_recommendation.
  destruct (key_present (OPENAI_API_KEY g)); cbn -[completion_content];
    [|now repeat split; try left].
  destruct (openai g); cbn -[completion_content]; [|now repeat split; try left].
  destruct (chat_completion w (advisory_prompt d)) as [e|r]; cbn -[completion_content].
  { repeat split. right. now exists (exn_str e). }
  destruct (completion_content r) as [e|c]; cbn.
  - repeat split. right. now exists (exn_str e).
  - repeat split. now left.
Qed.

(** Validation undoes [dict()]: the dictionary of a validated profile
    validates to the same profile. *)
Theorem UserModel_round_trip u : UserModel_validate (UserModel_dict u) = Some u.
Proof.
  destruct u as [e f l j dp lo ei mi cc rg]. unfold UserModel_validate, UserModel_dict.
  cbn [lookup String.eqb Ascii.eqb Bool.eqb email firstName lastName jobTitle department
       location employeeId managerId costcenter region].
  unfold optional_field.
  cbn [lookup String.eqb Ascii.eqb Bool.eqb].
  now destruct f, l, j, dp, lo, ei, mi, cc, rg.
Qed.

(** ** The dashboard *)

Lemma compare_digest_ascii a b :
  is_ascii a = true -> is_ascii b = true -> compare_digest a b = inr (String.eqb a b).
Proof. intros Ha Hb. unfold compare_digest. now rewrite Ha, Hb. Qed.

(** With ASCII credentials on both sides, [authenticate] lets a request
    through exactly when the user name and the password both equal the
    configured ones, and answers every other request with the 401
    exception and its [WWW-Authenticate: Basic] header; when the two
    environment variables are unset, the pair admin / adminpass is let
    through. *)
Theorem authenticate_accepts_the_configured_pair env c :
  is_ascii (username c) = true -> is_ascii (password c) = true ->
  is_ascii (DASHBOARD_USER env) = true -> is_ascii (DASHBOARD_PASS env) = true ->
  (authenticate env c = inr tt
   <-> username c = DASHBOARD_USER env /\ password c = DASHBOARD_PASS env)
  /\ (authenticate env c = inr tt \/ authenticate env c = inl (Abort unauthorized))
  /\ (env_DASHBOARD_USER env = None -> env_DASHBOARD_PASS env = None ->
      authenticate env (mkCredentials "admin" "adminpass") = inr tt).
Proof.
  intros Hu Hp HU HP. unfold authenticate.
  rewrite (compare_digest_ascii _ _ Hu HU), (compare_digest_ascii _ _ Hp HP).
  split; [|split].
  - destruct (String.eqb_spec (username c) (DASHBOARD_USER env)) as [Eu|Nu];
      destruct (String.eqb_spec (password c) (DASHBOARD_PASS env)) as [Ep|Np]; cbn;
      split; try discriminate; try easy; intros [? ?]; contradiction.
  - destruct (String.eqb (username c) (DASHBOARD_USER env)),
      (String.eqb (password c) (DASHBOARD_PASS env)); cbn; auto.
  - intros EU EP. unfold authenticate, DASHBOARD_USER, DASHBOARD_PASS.
    rewrite EU, EP. reflexivity.
Qed.

Lemma authenticate_accepts_the_configured_pair_witness :
  authenticate (mkEnviron (Some "ops") None) (mkCredentials "ops" "adminpass") = inr tt
  \/ authenticate (mkEnviron (Some "ops") None) (mkCredentials "ops" "adminpass")
     = inl (Abort unauthorized).
Proof.
  destruct (authenticate_accepts_the_configured_pair
              (mkEnviron (Some "ops") None) (mkCredentials "ops" "adminpass")
              eq_refl eq_refl eq_refl eq_refl) as (_ & H & _).
  exact H.
Defined.

(** When the configured user name or password holds a non-ASCII
    character, both comparisons are still made and one raises
    [TypeError]: no credentials are accepted, and the failure is an
    uncaught exception, not the 401 answer. *)
Theorem non_ascii_configuration_locks_dashboard env c f :
  is_ascii (DASHBOARD_USER env) = false \/ is_ascii (DASHBOARD_PASS env) = false ->
  authenticate env c
  = inl (Uncaught (TypeError "comparing strings with non-ASCII characters is not supported"))
  /\ get_dashboard env c f
     = inl (Uncaught (TypeError "comparing strings with non-ASCII characters is not supported")).
Proof.
  intros H.
  assert (Ha : authenticate env c
          = inl (Uncaught (TypeError "comparing strings with non-ASCII characters is not supported"))).
  { unfold authenticate, compare_digest. destruct H as [H|H]; rewrite H.
    - now rewrite andb_false_r.
    - rewrite andb_false_r.
      now destruct (is_ascii (username c) && is_ascii (DASHBOARD_USER env)). }
  split; [exact Ha|]. unfold get_dashboard. now rewrite Ha.
Qed.

Lemma non_ascii_configuration_locks_dashboard_witness :
  authenticate (mkEnviron None (Some (String (ascii_of_nat 233) "t")))
               (mkCredentials "admin" "x")
  = inl (Uncaught (TypeError "comparing strings with non-ASCII characters is not supported")).
Proof.
  destruct (non_ascii_configuration_locks_dashboard
              (mkEnviron None (Some (String (ascii_of_nat 233) "t")))
              (mkCredentials "admin" "x") Missing) as [H _].
  - right. reflexivity.
  - exact H.
Defined.

(** The page is returned only to the configured credentials, and it is
    then what [dashboard] renders from the log file. *)
Theorem dashboard_requires_credentials env c f page :
  get_dashboard env c f = inr page ->
  username c = DASHBOARD_USER env /\ password c = DASHBOARD_PASS env
  /\ dashboard f = inr page.
Proof.
  unfold get_dashboard, authenticate, compare_digest.
  destruct (is_ascii (username c) && is_ascii (DASHBOARD_USER env)); [|discriminate].
  destruct (is_ascii (password c) && is_ascii (DASHBOARD_PASS env)); [|discriminate].
  destruct (String.eqb_spec (username c) (DASHBOARD_USER env)) as [Eu|Nu];
    destruct (String.eqb_spec (password c) (DASHBOARD_PASS env)) as [Ep|Np]; cbn;
    try discriminate.
  destruct (dashboard f); [discriminate|]. now intros [= ->].
Qed.

Lemma dashboard_requires_credentials_witness :
  username (mkCredentials "admin" "adminpass") = DASHBOARD_USER (mkEnviron None None)
  /\ password (mkCredentials "admin" "adminpass") = DASHBOARD_PASS (mkEnviron None None)
  /\ dashboard Missing = inr (code_points no_logs_page).
Proof.
  apply (dashboard_requires_credentials (mkEnviron None None)
           (mkCredentials "admin" "adminpass") Missing (code_points no_logs_page)).
  reflexivity.
Defined.

(** The dashboard shows every line of the log file as a [div] of its own,
    holding the stripped line as it is, and shows a later line of the file
    before an earlier one. *)
Theorem dashboard_newest_first logs :
  (forall l, In l logs ->
     exists page, dashboard (Lines logs) = inr page /\ occurs (log_div l) page)
  /\ (forall before l1 between l2 after,
        logs = before ++ l1 :: between ++ l2 :: after ->
        exists p q r,
          dashboard (Lines logs) = inr (p ++ log_div l2 ++ q ++ log_div l1 ++ r)).
Proof.
  split.
  - intros l Hin. apply in_split in Hin. destruct Hin as (a & b & ->).
    eexists. split; [reflexivity|]. unfold occurs, formatted_logs.
    rewrite rev_app_distr. cbn [rev]. rewrite <- app_assoc. cbn [app].
    rewrite map_app. cbn [map]. rewrite concat_app. cbn [concat].
    exists (code_points page_head ++ concat (map log_div (rev b))),
      (concat (map log_div (rev a)) ++ code_points page_tail).
    now rewrite <- !app_assoc.
  - intros a l1 b l2 c ->. cbn [dashboard]. unfold formatted_logs.
    assert (Hrev : rev (a ++ l1 :: b ++ l2 :: c)
                   = rev c ++ [l2] ++ rev b ++ [l1] ++ rev a).
    { rewrite rev_app_distr. cbn [rev]. rewrite rev_app_distr. cbn [rev].
      now rewrite <- !app_assoc. }
    rewrite Hrev, !map_app, !concat_app. cbn [map concat]. rewrite !app_nil_r.
    exists (code_points page_head ++ concat (map log_div (rev c))),
      (concat (map log_div (rev b))),
      (concat (map log_div (rev a)) ++ code_points page_tail).
    now rewrite <- !app_assoc.
Qed.

Lemma dashboard_newest_first_witness :
  exists p q r,
    dashboard (Lines [code_points "first line"; code_points "second line"])
    = inr (p ++ log_div (code_points "second line") ++ q
             ++ log_div (code_points "first line") ++ r).
Proof.
  destruct (dashboard_newest_first [code_points "first line"; code_points "second line"])
    as [_ H].
  apply (H [] (code_points "first line") [] (code_points "second line") []). reflexivity.
Defined.

(** ** [Final_main.py] *)

Lemma Final_main_call_if_raises g a attr arg otherwise :
  exists e, Final_main.call_if g a attr arg otherwise = ([], inl e)
            /\ (g a = false -> e = Final_main.name_error a)
            /\ (g a = true ->
                Final_main.is_submodule g (Final_main.top_level a) attr = false ->
                e = AttributeError ("module '" ++ Final_main.package_name (Final_main.top_level a)
                                    ++ "' has no attribute '" ++ attr ++ "'")%string).
Proof.
  unfold Final_main.call_if, Final_main.global, Final_main.safe_import, Final_main.call_attr.
  destruct (g a) eqn:Hg; cbn -[Final_main.is_submodule Final_main.package_name append].
  - destruct (Final_main.is_submodule g (Final_main.top_level a) attr) eqn:Hs;
      destruct (Final_main.top_level a);
      cbn -[Final_main.is_submodule Final_main.package_name append];
      rewrite ?Hs; eexists; (split; [reflexivity|]); split; congruence.
  - eexists. split; [reflexivity|]. split; congruence.
Qed.

(** The handlers of [Final_main.py] never return a response.  Each alias
    is bound to the top-level package ([provision] or [logic]), not to the
    submodule, or is left unbound when the import failed: the first call
    through an alias raises [AttributeError] or [NameError] (or the body
    is no JSON, or has no [get]).  No collaborator is ever called; a Create
    request writes at most the line that announces it, update and delete
    write nothing. *)
Theorem Final_main_handlers_never_return op g request_json :
  (exists e, outcome (Final_main.handler op g request_json) = inl e)
  /\ events (outputs (Final_main.handler op g request_json)) = []
  /\ match op with
     | Create => length (records (outputs (Final_main.handler op g request_json))) <= 1
     | Update | Delete => records (outputs (Final_main.handler op g request_json)) = []
     end
  /\ (forall d, request_json = inr (VDict d) ->
        outcome (Final_main.handler Create g request_json)
        = inl (if g Final_main.ai_recommender
               then AttributeError "module 'logic' has no attribute 'get_access_recommendation'"
               else Final_main.name_error Final_main.ai_recommender)).
Proof.
  split; [|split; [|split]].
  - destruct op; cbn [Final_main.handler].
    + unfold Final_main.provision_user.
      destruct request_json as [e|user]; cbn -[get_method Final_main.call_if]; [eauto|].
      destruct (get_method user "email" (VStr "unknown")) as [e|shown];
        cbn -[get_method Final_main.call_if]; [eauto|].
      destruct (Final_main_call_if_raises g Final_main.ai_recommender
                  "get_access_recommendation" user (VDict [])) as (e & -> & _).
      cbn. eauto.
    + unfold Final_main.update_user.
      destruct request_json as [e|user]; cbn -[get_method Final_main.call_if]; [eauto|].
      destruct (Final_main_call_if_raises g Final_main.entra
                  "update_entra_user" user (VStr "module missing")) as (e & -> & _).
      cbn. eauto.
    + unfold Final_main.deprovision_user.
      destruct request_json as [e|user]; cbn -[get_method Final_main.call_if]; [eauto|].
      destruct (Final_main_call_if_raises g Final_main.entra
                  "delete_entra_user" user (VStr "module missing")) as (e & -> & _).
      cbn. eauto.
  - destruct op; cbn [Final_main.handler].
    + unfold Final_main.provision_user.
      destruct request_json as [e|user]; cbn -[get_method Final_main.call_if]; [reflexivity|].
      destruct (get_method user "email" (VStr "unknown")) as [e|shown];
        cbn -[get_method Final_main.call_if]; [reflexivity|].
      destruct (Final_main_call_if_raises g Final_main.ai_recommender
                  "get_access_recommendation" user (VDict [])) as (e & -> & _).
      reflexivity.
    + unfold Final_main.update_user.
      destruct request_json as [e|user]; cbn -[get_method Final_main.call_if]; [reflexivity|].
      destruct (Final_main_call_if_raises g Final_main.entra
                  "update_entra_user" user (VStr "module missing")) as (e & -> & _).
      reflexivity.
    + unfold Final_main.deprovision_user.
      destruct request_json as [e|user]; cbn -[get_method Final_main.call_if]; [reflexivity|].
      destruct (Final_main_call_if_raises g Final_main.entra
                  "delete_entra_user" user (VStr "module missing")) as (e & -> & _).
      reflexivity.
  - destruct op; cbn [Final_main.handler].
    + unfold Final_main.provision_user.
      destruct request_json as [e|user]; cbn -[get_method Final_main.call_if]; [lia|].
      destruct (get_method user "email" (VStr "unknown")) as [e|shown];
        cbn -[get_method Final_main.call_if]; [lia|].
      destruct (Final_main_call_if_raises g Final_main.ai_recommender
                  "get_access_recommendation" user (VDict [])) as (e & -> & _).
      cbn. lia.
    + unfold Final_main.update_user.
      destruct request_json as [e|user]; cbn -[get_method Final_main.call_if]; [reflexivity|].
      destruct (Final_main_call_if_raises g Final_main.entra
                  "update_entra_user" user (VStr "module missing")) as (e & -> & _).
      reflexivity.
    + unfold Final_main.deprovision_user.
      destruct request_json as [e|user]; cbn -[get_method Final_main.call_if]; [reflexivity|].
      destruct (Final_main_call_if_raises g Final_main.entra
                  "delete_entra_user" user (VStr "module missing")) as (e & -> & _).
      reflexivity.
  - intros d ->. cbn [Final_main.handler]. unfold Final_main.provision_user.
    cbn -[Final_main.call_if].
    destruct (Final_main_call_if_raises g Final_main.ai_recommender
                "get_access_recommendation" (VDict d) (VDict [])) as (e & -> & Hn & Ha).
    cbn. destruct (g Final_main.ai_recommender) eqn:Hg.
    + rewrite (Ha eq_refl); [reflexivity|].
      unfold Final_main.is_submodule. cbn.
      now destruct (g Final_main.entra), (g Final_main.aws), (g Final_main.sailpoint),
        (g Final_main.opa_enforcer); rewrite ?Hg.
    + now rewrite (Hn eq_refl).
Qed.

Lemma Final_main_handlers_never_return_witness :
  outcome (Final_main.handler Create (fun _ => true) (inr alice_body))
  = inl (AttributeError "module 'logic' has no attribute 'get_access_recommendation'").
Proof.
  destruct (Final_main_handlers_never_return Create (fun _ => true) (inr alice_body))
    as (_ & _ & _ & H).
  apply (H _ eq_refl).
Defined.

(** ** [logic/ai_recommender.py] *)

(** The prompt of [get_access_recommendation] is built from the keys
    [title], [department], [level] and [location] alone: two profiles that
    agree on them get the same query and the same answer.  A profile in
    the shape of [UserModel] has no [title] and no [level], so of its ten
    fields only [department] and [location] reach the model. *)
Theorem recommendation_reads_four_keys w p q :
  (same_prompt_fields p q ->
   get_access_recommendation w p = get_access_recommendation w q)
  /\ (forall u u' d d',
        UserModel_dict u = VDict d -> UserModel_dict u' = VDict d' ->
        department u = department u' -> location u = location u' ->
        get_access_recommendation w d = get_access_recommendation w d').
Proof.
  split.
  - intros (Ht & Hd & Hl & Ho). unfold get_access_recommendation.
    now rewrite Ht, Hd, Hl, Ho.
  - intros u u' d d' [= <-] [= <-] Hd Hl. unfold get_access_recommendation, profile_get.
    cbn [lookup String.eqb Ascii.eqb Bool.eqb]. now rewrite Hd, Hl.
Qed.

Lemma recommendation_reads_four_keys_witness :
  get_access_recommendation offline [("title", VStr "Engineer"); ("note", VStr "a")]
  = get_access_recommendation offline [("note", VStr "b"); ("title", VStr "Engineer")].
Proof.
  destruct (recommendation_reads_four_keys offline
              [("title", VStr "Engineer"); ("note", VStr "a")]
              [("note", VStr "b"); ("title", VStr "Engineer")]) as [H _].
  apply H. now repeat split.
Defined.

(** ** Create with the Entra adapter of the sources *)

Lemma entra_adapter_never_provisions_witness :
  exists reason,
    denial (VStr "OPA policy check failed") = denial reason.
Proof.
  apply (entra_adapter_never_provisions
           {| entra := RealModule; aws := MockModule; sailpoint := MockModule;
              opa_enforcer := RealModule; openai := true; OPENAI_API_KEY := None |}
           offline alice (denial (VStr "OPA policy check failed"))); reflexivity.
Defined.

(** ** Order of the calls of a Create request *)

Lemma split_after_quiet {A} (P : A -> bool) (quiet rest pre post : list A) x :
  filter P quiet = [] -> P x = true ->
  quiet ++ rest = pre ++ x :: post ->
  exists pre', pre = quiet ++ pre'.
Proof.
  revert pre. induction quiet as [|y quiet IH]; intros pre Hq Hx Heq.
  - now exists pre.
  - cbn in Hq. destruct (P y) eqn:Hy; [discriminate|].
    destruct pre as [|z pre]; cbn in Heq.
    + injection Heq as -> _. congruence.
    + injection Heq as -> Heq. destruct (IH pre Hq Hx Heq) as (pre' & ->).
      now exists pre'.
Qed.

(** In every run of [provision_user], whatever it returns or raises, a
    call to a backend adapter comes after the call to the advisory helper
    and after the call to the policy gate. *)
Theorem policy_precedes_adapters g w u pre b op post :
  events (outputs (provision_user g w u)) = pre ++ CallAdapter b op :: post ->
  In CallAdvisory pre /\ In CallPolicy pre.
Proof.
  destruct (advisory_returns g w (UserModel_dict u)) as (oa & ai & Ea & Hoa & _).
  destruct (policy_gate_returns g w u) as (og & pc & Eg & Hog & _).
  rewrite (provision_user_run _ _ _ _ _ _ _ Ea Eg).
  assert (Hquiet : filter is_adapter_call
                     (CallAdvisory :: events oa ++ CallPolicy :: events og) = []).
  { cbn. rewrite filter_app. cbn. unfold adapter_calls in Hoa, Hog. now rewrite Hoa, Hog. }
  assert (Hgo : forall tail,
            events (received u :: (Ev CallAdvisory :: oa) ++ recommended ai
                      :: (Ev CallPolicy :: og) ++ tail)
            = (CallAdvisory :: events oa ++ CallPolicy :: events og) ++ events tail).
  { intros tail. calls. cbn. now rewrite <- !app_assoc. }
  assert (Hin : forall tail,
            events (received u :: (Ev CallAdvisory :: oa) ++ recommended ai
                      :: (Ev CallPolicy :: og) ++ tail)
            = pre ++ CallAdapter b op :: post ->
            In CallAdvisory pre /\ In CallPolicy pre).
  { intros tail H. rewrite Hgo in H.
    destruct (split_after_quiet is_adapter_call _ _ _ _ (CallAdapter b op) Hquiet eq_refl H)
      as (pre' & ->).
    split.
    - now left.
    - right. apply in_or_app. left. apply in_or_app. right. now left. }
  destruct (get_method pc "allow" (VBool false)) as [e|a].
  { cbn [outputs fst]. rewrite <- (app_nil_r (Ev CallPolicy :: og)). apply Hin. }
  destruct (negb (truthy a)).
  - destruct (get_method pc "reason" (VStr "Policy Violation")); cbn [outputs fst].
    + rewrite <- (app_nil_r (Ev CallPolicy :: og)). apply Hin.
    + apply Hin.
  - cbn [outputs fst]. apply Hin.
Qed.

Lemma policy_precedes_adapters_witness :
  In CallAdvisory [CallAdvisory; CallPolicy] /\ In CallPolicy [CallAdvisory; CallPolicy].
Proof.
  apply (policy_precedes_adapters (all_mocks None) offline alice
           [CallAdvisory; CallPolicy] Entra Create
           [CallAdapter AWS Create; CallAdapter SailPoint Create]).
  reflexivity.
Defined.
